(** * The repository collector of the VCS scraper

    A shallow embedding of [src/vcs_scraper/repository_collector/common.py]:
    the extraction loop, the active-repository report, the task dispatch
    and the collection entry point, together with the properties of the
    discovery and dispatch pipeline.

    Python values are modelled by [pyval], dictionaries by [gmap], raised
    exceptions by an explicit [Raise] outcome, and every observable effect
    (log record, connector call, HTTP request, queue message) is appended
    to the trace that a computation of type [M] carries. *)

From Stdlib Require Import Ascii.
From stdpp Require Import base option list gmap strings pretty.

Local Open Scope string_scope.
Local Open Scope list_scope.

(** ** Python values *)

(** The values found in a raw repository record and returned as a latest
    commit: [None], booleans, integers and strings, and any other object,
    of which the collector observes only what [str] makes of it and its
    truth value. *)
Inductive pyval :=
| PyNone
| PyBool (b : bool)
| PyInt (z : Z)
| PyStr (s : string)
| PyObject (str : string) (truth : bool).

Global Instance pyval_eq_dec : EqDecision pyval.
Proof. solve_decision. Defined.

(** The builtin [str], also what an f-string applies to a replacement
    field. *)
Definition py_str (v : pyval) : string :=
  match v with
  | PyNone => "None"
  | PyBool true => "True"
  | PyBool false => "False"
  | PyInt z => pretty z
  | PyStr s => s
  | PyObject str _ => str
  end.

(** Truth value testing, as done by [if latest_commit:]. *)
Definition truthy (v : pyval) : bool :=
  match v with
  | PyNone => false
  | PyBool b => b
  | PyInt z => negb (z =? 0)%Z
  | PyStr s => negb (String.eqb s "")
  | PyObject _ truth => truth
  end.

(** A raw repository record is a dictionary. *)
Abbreviation dict := (gmap string pyval).

(** ** Exceptions *)

(** The exception classes that matter to the two [except] clauses: the
    [requests] hierarchy has [RequestException] at its root, with
    [HTTPError], [ConnectionError] and [Timeout] below it; [KeyError] is
    what a failed subscript raises; [Exception] stands for any other
    class. Each carries its message. *)
Inductive exn :=
| HTTPError (msg : string)
| ConnectionError (msg : string)
| Timeout (msg : string)
| RequestException (msg : string)
| KeyError (key : string)
| Exception (msg : string).

Global Instance exn_eq_dec : EqDecision exn.
Proof. solve_decision. Defined.

(** [isinstance(e, requests.exceptions.HTTPError)] *)
Definition is_HTTPError (e : exn) : bool :=
  match e with HTTPError _ => true | _ => false end.

(** [isinstance(e, requests.exceptions.RequestException)] *)
Definition is_RequestException (e : exn) : bool :=
  match e with
  | HTTPError _ | ConnectionError _ | Timeout _ | RequestException _ => true
  | KeyError _ | Exception _ => false
  end.

(** [str(e)] *)
Definition exn_str (e : exn) : string :=
  match e with
  | HTTPError msg | ConnectionError msg | Timeout msg
  | RequestException msg | Exception msg => msg
  | KeyError key => "'" +:+ key +:+ "'"
  end.

Inductive result (A : Type) :=
| Ok (a : A)
| Raise (e : exn).
Global Arguments Ok {A} a.
Global Arguments Raise {A} e.

(** ** The models of [vcs_scraper.model] *)

(** The three model classes are declared outside the sources at hand.
    Building an instance from values of the right shape and serializing
    it are taken to succeed; the JSON document that
    [send_repository_id_to_backend] posts is identified with the
    [ActiveRepositories] value it is decoded from. *)

(** Modelled from the spec: the [Repository] task descriptor of
    [vcs_scraper.model], whose declaration is not part of the sources
    (section 3 and section 6 give its attributes). *)
Record Repository := {
  repo_project_key : string;
  repo_repository_id : string;
  repo_repository_name : string;
  repo_repository_url : string;
  repo_vcs_instance_name : string;
  repo_latest_commit : string;
  repo_branches : list string
}.

Global Instance Repository_eq_dec : EqDecision Repository.
Proof. solve_decision. Defined.

(** Modelled from the spec: [SimpleRepository] of [vcs_scraper.model]
    (section 3: attributes id and name). The name is stored as given. *)
Record SimpleRepository := {
  simple_id : string;
  simple_name : pyval
}.

Global Instance SimpleRepository_eq_dec : EqDecision SimpleRepository.
Proof. solve_decision. Defined.

(** Modelled from the spec: [ActiveRepositories] of [vcs_scraper.model]
    (section 3 and the JSON body of section 6). *)
Record ActiveRepositories := {
  active_project_key : string;
  active_vcs_instance_name : string;
  repositories : list SimpleRepository
}.

Global Instance ActiveRepositories_eq_dec : EqDecision ActiveRepositories.
Proof. solve_decision. Defined.

(** Modelled from the spec: a VCS instance configuration (section 3), the
    value type of the map that [load_vcs_instances_into_map] returns. *)
Record VCSInstance := {
  instance_name : string;
  provider_type : string;
  scheme : string;
  hostname : string;
  port : Z;
  organization : string;
  scope : list string;
  exceptions : list string
}.

(** ** The VCS connector *)

(** The three methods that the collector calls on [vcs_client]. The
    connector classes are not part of the sources; within one run a
    connector answers as a function of the request. *)
Record VCSConnector := {
  get_repos : string → result (list dict);
  get_latest_commit : string → pyval → result pyval;
  export_repository : dict → pyval → string → result Repository
}.

(** ** Observable effects *)

Inductive level := INFO | ERROR.

Global Instance level_eq_dec : EqDecision level.
Proof. solve_decision. Defined.

(** The response of [requests.post], as far as [raise_for_status] reads
    it. *)
Record Response := {
  status_code : Z;
  reason : string;
  response_url : string
}.

Inductive event :=
| Log (lvl : level) (msg : string)
| Load_vcs_instances (path : string)
| Create_client (instance : string)
| Get_repos (key : string)
| Get_latest_commit (key : string) (repo_id : pyval)
| Export_repository (repository : dict) (commit : pyval) (instance : string)
| Post (url : string) (json : ActiveRepositories) (headers : list (string * string))
| Send_task (task_name : string) (kwargs : list (string * string)) (queue : string).

Global Instance event_eq_dec : EqDecision event.
Proof. solve_decision. Defined.

(** ** Computations: an outcome and the effects performed on the way *)

Record M (A : Type) := Run {
  outcome : result A;
  effects : list event
}.
Global Arguments Run {A} outcome effects.
Global Arguments outcome {A} m.
Global Arguments effects {A} m.

Global Instance M_ret : MRet M := λ A a, Run (Ok a) [].

Global Instance M_bind : MBind M := λ A B f m,
  match outcome m with
  | Ok a => Run (outcome (f a)) (effects m ++ effects (f a))
  | Raise e => Run (Raise e) (effects m)
  end.

Definition raise {A} (e : exn) : M A := Run (Raise e) [].

(** Perform the effect [ev], whose result is [r]. *)
Definition perform {A} (ev : event) (r : result A) : M A := Run r [ev].

(** [try: body  except cls as e: handler e], where [catches] decides
    membership in [cls]. *)
Definition try_except {A} (body : M A) (catches : exn → bool)
    (handler : exn → M A) : M A :=
  match outcome body with
  | Ok a => body
  | Raise e =>
      if catches e
      then Run (outcome (handler e)) (effects body ++ effects (handler e))
      else body
  end.

(** [for x in xs: acc = body x acc], the loop variable state threaded
    through the iterations. *)
Fixpoint for_each {A S} (body : A → S → M S) (xs : list A) (acc : S) : M S :=
  match xs with
  | [] => mret acc
  | x :: xs' => acc' ← body x acc; for_each body xs' acc'
  end.

(** A list comprehension whose element expression can raise. *)
Fixpoint comprehension {A B} (f : A → M B) (xs : list A) : M (list B) :=
  match xs with
  | [] => mret []
  | x :: xs' => y ← f x; ys ← comprehension f xs'; mret (y :: ys)
  end.

(** [d[k]] *)
Definition getitem {V} (d : gmap string V) (k : string) : M V :=
  match d !! k with
  | Some v => mret v
  | None => raise (KeyError k)
  end.

Definition logger_info (msg : string) : M unit := perform (Log INFO msg) (Ok tt).
Definition logger_error (msg : string) : M unit := perform (Log ERROR msg) (Ok tt).

(** ** The deployment a worker runs in *)

(** What the module reads from its surroundings: the validated
    environment table, the names defined in [vcs_scraper.constants] and
    [vcs_scraper.configuration], the configuration loader, the connector
    factory, the serializer of the [Repository] model, and the answers of
    the backend and of the queue broker. *)
Record World := {
  env_variables : gmap string string;
  RESC_API_NO_AUTH_SERVICE_HOST : string;
  RESC_API_NO_AUTH_SERVICE_PORT : string;
  VCS_INSTANCES_FILE_PATH : string;
  PROJECT_QUEUE : string;
  REPOSITORY_QUEUE : string;
  SECRET_SCANNER_TASK_NAME : string;
  load_vcs_instances_into_map : string → result (gmap string VCSInstance);
  create_client_from_vcs_instance : VCSInstance → result VCSConnector;
  model_dump_json : Repository → string;
  requests_post :
    string → ActiveRepositories → list (string * string) → result Response;
  celery_send_task :
    string → list (string * string) → string → result unit
}.

(** [Response.raise_for_status] of the [requests] library. *)
Definition raise_for_status (response : Response) : M unit :=
  let code := status_code response in
  if bool_decide (400 ≤ code < 500)%Z then
    raise (HTTPError (pretty code +:+ " Client Error: " +:+ reason response
                      +:+ " for url: " +:+ response_url response))
  else if bool_decide (500 ≤ code < 600)%Z then
    raise (HTTPError (pretty code +:+ " Server Error: " +:+ reason response
                      +:+ " for url: " +:+ response_url response))
  else mret tt.

Section Collector.

Variable world : World.

(** ** [extract_repository_id_and_name] *)

Definition extract_repository_id_and_name (repositories : list dict)
    : M (list SimpleRepository) :=
  comprehension
    (λ repo,
       repo_id ← getitem repo "id";
       repo_name ← getitem repo "name";
       mret {| simple_id := py_str repo_id; simple_name := repo_name |})
    repositories.

(** ** [send_repository_id_to_backend] *)

Definition send_repository_id_to_backend (repositories : list SimpleRepository)
    (vcs_instance_name project_key : string) : M unit :=
  host ← getitem (env_variables world) (RESC_API_NO_AUTH_SERVICE_HOST world);
  port ← getitem (env_variables world) (RESC_API_NO_AUTH_SERVICE_PORT world);
  let backend_url := "http://" +:+ host +:+ ":" +:+ port in
  let url := backend_url +:+ "/resc/v1/repositories/active" in
  let headers := [("Content-Type", "application/json")] in
  let body := {| active_project_key := project_key;
                 active_vcs_instance_name := vcs_instance_name;
                 repositories := repositories |} in
  try_except
    (response ← perform (Post url body headers)
                        (requests_post world url body headers);
     raise_for_status response;;
     logger_info ("repository in project" +:+ project_key +:+ " exists"))
    is_RequestException
    (λ e,
       logger_info ("Error updating repository in project " +:+ project_key
                    +:+ ": " +:+ exn_str e);;
       mret tt).

(** ** [extract_project_information] *)

(** The body of the loop over [project_repositories], lines 50 to 67. *)
Definition process_repository (project_key : string) (vcs_client : VCSConnector)
    (vcs_instance_name : string) (repository : dict)
    (project_tasks : list Repository) : M (list Repository) :=
  try_except
    (name ← getitem repository "name";
     logger_info ("Fetching latest commit for repository: '" +:+ project_key
                  +:+ "/" +:+ py_str name +:+ "'");;
     repository_id ← getitem repository "name";
     latest_commit ← perform (Get_latest_commit project_key repository_id)
                       (get_latest_commit vcs_client project_key repository_id);
     task_parameters ←
       perform (Export_repository repository latest_commit vcs_instance_name)
         (export_repository vcs_client repository latest_commit vcs_instance_name);
     if truthy latest_commit then
       let project_tasks := project_tasks ++ [task_parameters] in
       name ← getitem repository "name";
       logger_info ("Information for repository: '" +:+ project_key +:+ "/"
                    +:+ py_str name +:+ "' was fetched successfully");;
       mret project_tasks
     else
       name ← getitem repository "name";
       logger_info ("Repository: '" +:+ project_key +:+ "/" +:+ py_str name
                    +:+ "' has no commits, skipping");;
       mret project_tasks)
    is_HTTPError
    (λ http_exception,
       name ← getitem repository "name";
       logger_error ("Error while processing repository '" +:+ project_key
                     +:+ "/" +:+ py_str name +:+ "':"
                     +:+ " Unable to obtain the repository's latest commit: "
                     +:+ exn_str http_exception);;
       mret project_tasks).

Definition extract_project_information (project_key : string)
    (vcs_client : VCSConnector) (vcs_instance_name : string)
    : M (list Repository) :=
  logger_info ("Fetching repositories for project: '" +:+ project_key
               +:+ "' in vcs instance '" +:+ vcs_instance_name +:+ "'");;
  project_repositories ← perform (Get_repos project_key)
                           (get_repos vcs_client project_key);
  logger_info ("Fetched " +:+ pretty (length project_repositories)
               +:+ " repositories for project: '" +:+ project_key +:+ "'");;
  project_tasks ←
    for_each (process_repository project_key vcs_client vcs_instance_name)
      project_repositories [];
  simple ← extract_repository_id_and_name project_repositories;
  send_repository_id_to_backend simple vcs_instance_name project_key;;
  mret project_tasks.

(** ** [send_tasks_to_celery_queue] *)

Definition send_tasks_to_celery_queue (task_name queue_name : string)
    (project_tasks : list Repository) : M unit :=
  for_each
    (λ task (_ : unit),
       let kwargs := [("repository", model_dump_json world task)] in
       perform (Send_task task_name kwargs queue_name)
         (celery_send_task world task_name kwargs queue_name))
    project_tasks tt.

(** ** [collect_repositories] *)

Definition collect_repositories (project_key vcs_instance_name : string)
    : M unit :=
  path ← getitem (env_variables world) (VCS_INSTANCES_FILE_PATH world);
  vcs_instances_map ← perform (Load_vcs_instances path)
                        (load_vcs_instances_into_map world path);
  logger_info ("Project processor received an azure project key: '"
               +:+ project_key +:+ "'");;
  vcs_instance ← getitem vcs_instances_map vcs_instance_name;
  vcs_client ← perform (Create_client vcs_instance_name)
                 (create_client_from_vcs_instance world vcs_instance);
  project_tasks ←
    extract_project_information project_key vcs_client vcs_instance_name;
  send_tasks_to_celery_queue (SECRET_SCANNER_TASK_NAME world)
    (REPOSITORY_QUEUE world) project_tasks.

End Collector.

(** * Vocabulary of the statements *)

(** ** What a trace shows *)

(** The payloads of the reports sent to the backend, in order. *)
Definition reports (trace : list event) : list ActiveRepositories :=
  omap (λ ev, match ev with Post _ body _ => Some body | _ => None end) trace.

(** The messages handed to the queue, in order. *)
Definition enqueued (trace : list event)
    : list (string * list (string * string) * string) :=
  omap (λ ev, match ev with
              | Send_task task_name kwargs queue => Some (task_name, kwargs, queue)
              | _ => None
              end) trace.

(** The commit fetches made on the connector, in order: project key and
    repository id of each call. *)
Definition fetches (trace : list event) : list (string * pyval) :=
  omap (λ ev, match ev with
              | Get_latest_commit key repo_id => Some (key, repo_id)
              | _ => None
              end) trace.

(** A call result that is a value or an exception of the caught class. *)
Definition returns_or_raises {A} (catches : exn → bool) (r : result A) : bool :=
  match r with
  | Ok _ => true
  | Raise e => catches e
  end.

(** ** The records that the collector logs *)

Section Records.

Variables (project_key vcs_instance_name : string).

Definition listing_record : event :=
  Log INFO ("Fetching repositories for project: '" +:+ project_key
            +:+ "' in vcs instance '" +:+ vcs_instance_name +:+ "'").

Definition listed_record (count : nat) : event :=
  Log INFO ("Fetched " +:+ pretty count +:+ " repositories for project: '"
            +:+ project_key +:+ "'").

(** What precedes the loop once the listing is there. *)
Definition prologue (listing : list dict) : list event :=
  [listing_record; Get_repos project_key; listed_record (length listing)].

Definition fetching_record (name : pyval) : event :=
  Log INFO ("Fetching latest commit for repository: '" +:+ project_key
            +:+ "/" +:+ py_str name +:+ "'").

Definition fetched_record (name : pyval) : event :=
  Log INFO ("Information for repository: '" +:+ project_key +:+ "/"
            +:+ py_str name +:+ "' was fetched successfully").

Definition skipping_record (name : pyval) : event :=
  Log INFO ("Repository: '" +:+ project_key +:+ "/" +:+ py_str name
            +:+ "' has no commits, skipping").

Definition error_record (name : pyval) (e : exn) : event :=
  Log ERROR ("Error while processing repository '" +:+ project_key
             +:+ "/" +:+ py_str name +:+ "':"
             +:+ " Unable to obtain the repository's latest commit: "
             +:+ exn_str e).

Definition failure_record (e : exn) : event :=
  Log INFO ("Error updating repository in project " +:+ project_key
            +:+ ": " +:+ exn_str e).

Definition success_record : event :=
  Log INFO ("repository in project" +:+ project_key +:+ " exists").

Definition received_record : event :=
  Log INFO ("Project processor received an azure project key: '"
            +:+ project_key +:+ "'").

End Records.

(** ** Listed records and the connector's answers *)

Section Listed_records.

Variables (project_key : string) (vcs_client : VCSConnector)
          (vcs_instance_name : string).

(** The latest commit of a listed record was fetched and is present, that
    is, passes the test of line 54. *)
Definition has_commit (repository : dict) : bool :=
  match repository !! "name" with
  | None => false
  | Some name =>
      match get_latest_commit vcs_client project_key name with
      | Ok commit => truthy commit
      | Raise _ => false
      end
  end.

(** The iteration on a record ends without a propagating exception:
    the record has a name and each connector call returns or raises an
    [HTTPError]. *)
Definition contained (repository : dict) : bool :=
  match repository !! "name" with
  | None => false
  | Some name =>
      match get_latest_commit vcs_client project_key name with
      | Raise e => is_HTTPError e
      | Ok commit =>
          returns_or_raises is_HTTPError
            (export_repository vcs_client repository commit vcs_instance_name)
      end
  end.

(** The descriptor that the iteration on a record appends, if any. *)
Definition task_of (repository : dict) : option Repository :=
  match repository !! "name" with
  | None => None
  | Some name =>
      match get_latest_commit vcs_client project_key name with
      | Raise _ => None
      | Ok commit =>
          match export_repository vcs_client repository commit
                  vcs_instance_name with
          | Raise _ => None
          | Ok task => if truthy commit then Some task else None
          end
      end
  end.

(** [export_repository] applied to a listed record and its fetched commit. *)
Definition export_of (repository : dict) : option Repository :=
  match repository !! "name" with
  | None => None
  | Some name =>
      match get_latest_commit vcs_client project_key name with
      | Raise _ => None
      | Ok commit =>
          match export_repository vcs_client repository commit
                  vcs_instance_name with
          | Raise _ => None
          | Ok task => Some task
          end
      end
  end.

(** The contract of a connector (section 4.1 of the specification):
    [export_repository] does not fail on a record whose commit is
    present. *)
Definition export_honoured (repository : dict) : bool :=
  implb (has_commit repository) (bool_decide (is_Some (export_of repository))).

(** [task] was built by the connector from [repository], its present
    latest commit and the instance name of the run. *)
Definition descriptor_of (repository : dict) (task : Repository) : Prop :=
  ∃ name commit,
    repository !! "name" = Some name ∧
    get_latest_commit vcs_client project_key name = Ok commit ∧
    truthy commit = true ∧
    export_repository vcs_client repository commit vcs_instance_name = Ok task.

(** What the loop records for an iteration that ends in the handler of
    line 63 after a failed commit fetch. *)
Definition skipped_records (name : pyval) (e : exn) : list event :=
  [fetching_record project_key name; Get_latest_commit project_key name;
   error_record project_key name e].

(** The failure [e] of the commit fetch of [repository] is logged, the
    task list is left as it was, and the loop goes on with the records
    after it. *)
Definition skips_and_continues (before : list dict) (repository : dict)
    (after : list dict) (name : pyval) (e : exn) : Prop :=
  let process :=
    process_repository project_key vcs_client vcs_instance_name in
  (∀ project_tasks,
     process repository project_tasks =
     Run (Ok project_tasks) (skipped_records name e)) ∧
  for_each process (before ++ repository :: after) [] =
  (project_tasks ← for_each process before [];
   Run (outcome (for_each process after project_tasks))
       (skipped_records name e
          ++ effects (for_each process after project_tasks))).

End Listed_records.

(** ** The report *)

(** The entry that a listed record contributes to the report. *)
Definition simple_of (repository : dict) : option SimpleRepository :=
  repo_id ← repository !! "id";
  repo_name ← repository !! "name";
  Some {| simple_id := py_str repo_id; simple_name := repo_name |}.

(** A record carries the two fields that the collector subscripts. *)
Definition well_formed (repository : dict) : bool :=
  match repository !! "id", repository !! "name" with
  | Some _, Some _ => true
  | _, _ => false
  end.

(** [entry] is the projection of [repository]: the string conversion of
    its id, and its name as it is. *)
Definition entry_of (repository : dict) (entry : SimpleRepository) : Prop :=
  ∃ repo_id repo_name,
    repository !! "id" = Some repo_id ∧
    repository !! "name" = Some repo_name ∧
    simple_id entry = py_str repo_id ∧
    simple_name entry = repo_name.

(** The digit that a character stands for. *)
Definition digit_of (c : Ascii.ascii) : option N :=
  let code := Ascii.N_of_ascii c in
  if bool_decide (48 ≤ code ≤ 57)%N then Some (code - 48)%N else None.

Fixpoint decimal_go (acc : N) (s : string) : option N :=
  match s with
  | EmptyString => Some acc
  | String c s' => d ← digit_of c; decimal_go (acc * 10 + d) s'
  end.

(** The number that a non-empty string of digits denotes, read from the
    most significant digit on. *)
Definition decimal (s : string) : option N :=
  match s with
  | EmptyString => None
  | String _ _ => decimal_go 0 s
  end.

(** The integer that a decimal numeral denotes, with a minus sign in
    front if it is negative. *)
Definition decimal_Z (s : string) : option Z :=
  match s with
  | EmptyString => None
  | String c s' =>
      if Ascii.eqb c "-"%char then n ← decimal s'; Some (- Z.of_N n)%Z
      else Z.of_N <$> decimal s
  end.

(** [s] is what [str] gives for [v]: a string is itself, an integer is
    its decimal numeral, [None] and the booleans are their names, and any
    other object is whatever its own [str] gives. *)
Definition string_conversion (v : pyval) (s : string) : Prop :=
  match v with
  | PyNone => s = "None"
  | PyBool b => s = if b then "True" else "False"
  | PyInt z => s = pretty z
  | PyStr t => s = t
  | PyObject str _ => s = str
  end.

(** [entry] is what the report says of [repository]: the id is the string
    conversion of the record's id field, which for an integer reads back
    as that integer, and the name is the record's name field itself. *)
Definition reported_as (repository : dict) (entry : SimpleRepository) : Prop :=
  ∃ repo_id,
    repository !! "id" = Some repo_id ∧
    string_conversion repo_id (simple_id entry) ∧
    (∀ z, repo_id = PyInt z → decimal_Z (simple_id entry) = Some z) ∧
    repository !! "name" = Some (simple_name entry).

(** The endpoint that the report is posted to. *)
Definition report_url (host port : string) : string :=
  ("http://" +:+ host +:+ ":" +:+ port) +:+ "/resc/v1/repositories/active".

Definition report_headers : list (string * string) :=
  [("Content-Type", "application/json")].

Definition report_body (project_key vcs_instance_name : string)
    (simple : list SimpleRepository) : ActiveRepositories :=
  {| active_project_key := project_key;
     active_vcs_instance_name := vcs_instance_name;
     repositories := simple |}.

(** The exception that [raise_for_status] raises for a response, if any. *)
Definition status_error (response : Response) : option exn :=
  match outcome (raise_for_status response) with
  | Ok _ => None
  | Raise e => Some e
  end.

(** The exception with which the delivery of a report fails, if it does:
    raised by the request, or by [raise_for_status] on the response. *)
Definition delivery_error (answer : result Response) : option exn :=
  match answer with
  | Raise e => Some e
  | Ok response => status_error response
  end.

(** The report on a listing ends without a propagating exception: every
    record carries an id and a name, the address of the backend is in the
    environment, and the request returns or raises a
    [RequestException]. *)
Definition report_contained (world : World)
    (project_key vcs_instance_name : string) (listing : list dict) : bool :=
  match mapM simple_of listing,
        env_variables world !! RESC_API_NO_AUTH_SERVICE_HOST world,
        env_variables world !! RESC_API_NO_AUTH_SERVICE_PORT world with
  | Some simple, Some host, Some port =>
      returns_or_raises is_RequestException
        (requests_post world (report_url host port)
           (report_body project_key vcs_instance_name simple) report_headers)
  | _, _, _ => false
  end.

(** ** The queue *)

Section Messages.

Variables (world : World) (task_name queue_name : string).

Definition task_kwargs (task : Repository) : list (string * string) :=
  [("repository", model_dump_json world task)].

(** The message that carries a descriptor. *)
Definition scan_message (task : Repository)
    : string * list (string * string) * string :=
  (task_name, task_kwargs task, queue_name).

(** The broker accepts the message of a descriptor. *)
Definition accepted (task : Repository) : bool :=
  match celery_send_task world task_name (task_kwargs task) queue_name with
  | Ok _ => true
  | Raise _ => false
  end.

End Messages.

(** * Scenarios *)

(** The runs of section 8 of the specification, as concrete connectors
    and deployments on which the statements below are exercised. *)
Module Scenario.

Definition record (repo_id : pyval) (name : string) : dict :=
  {[ "id" := repo_id; "name" := PyStr name ]}.

Definition A : dict := record (PyInt 1) "A".
Definition B : dict := record (PyInt 2) "B".
Definition C : dict := record (PyStr "c-3") "C".
Definition D : dict := record (PyInt 4) "D".
Definition E : dict := record (PyInt 5) "E".

(** A connector's descriptor of a record. *)
Definition describe (project_key : string) (repository : dict)
    (commit : pyval) (vcs_instance_name : string) : Repository :=
  {| repo_project_key := project_key;
     repo_repository_id := from_option py_str "" (repository !! "id");
     repo_repository_name := from_option py_str "" (repository !! "name");
     repo_repository_url :=
       "https://vcs.example/" +:+ project_key +:+ "/"
       +:+ from_option py_str "" (repository !! "name");
     repo_vcs_instance_name := vcs_instance_name;
     repo_latest_commit := py_str commit;
     repo_branches := [] |}.

Definition connector (project_key : string) (listing : result (list dict))
    (commits : pyval → result pyval) : VCSConnector :=
  {| get_repos := λ _, listing;
     get_latest_commit := λ _ repository_id, commits repository_id;
     export_repository := λ repository commit vcs_instance_name,
       Ok (describe project_key repository commit vcs_instance_name) |}.

(** Project [P1]: [A] at commit abc, [B] without commits, [C] at def. *)
Definition commits_P1 (repository_id : pyval) : result pyval :=
  if decide (repository_id = PyStr "A") then Ok (PyStr "abc")
  else if decide (repository_id = PyStr "C") then Ok (PyStr "def")
  else Ok PyNone.

Definition client_P1 : VCSConnector :=
  connector "P1" (Ok [A; B; C]) commits_P1.

(** Project [P2]: the listing call throws. *)
Definition client_P2 : VCSConnector :=
  connector "P2" (Raise (ConnectionError "connection refused"))
    (λ _, Ok PyNone).

(** Project [P3]: the commit fetch of [D] raises [e], [E] is at xyz. *)
Definition commits_P3 (e : exn) (repository_id : pyval) : result pyval :=
  if decide (repository_id = PyStr "D") then Raise e else Ok (PyStr "xyz").

Definition client_P3 (e : exn) : VCSConnector :=
  connector "P3" (Ok [D; E]) (commits_P3 e).

Definition not_found : exn :=
  HTTPError "404 Client Error: Not Found for url: https://vcs.example/P3/D".

Definition timed_out : exn := Timeout "read timed out".

Definition instance : VCSInstance :=
  {| instance_name := "inst";
     provider_type := "BITBUCKET";
     scheme := "https";
     hostname := "vcs.example";
     port := 443;
     organization := "";
     scope := [];
     exceptions := [] |}.

(** A stand-in for the serializer of the [Repository] model. *)
Definition dump (task : Repository) : string :=
  repo_vcs_instance_name task +:+ ":" +:+ repo_project_key task +:+ "/"
  +:+ repo_repository_id task +:+ "@" +:+ repo_latest_commit task.

(** A deployment around [client], whose backend answers every report
    with [answer] and whose broker answers every message with
    [broker]. *)
Definition deployment (client : VCSConnector) (answer : result Response)
    (broker : result unit) : World :=
  {| env_variables :=
       {[ "RESC_API_NO_AUTH_SERVICE_HOST" := "backend";
          "RESC_API_NO_AUTH_SERVICE_PORT" := "8000";
          "VCS_INSTANCES_FILE_PATH" := "/etc/vcs_instances.json" ]};
     RESC_API_NO_AUTH_SERVICE_HOST := "RESC_API_NO_AUTH_SERVICE_HOST";
     RESC_API_NO_AUTH_SERVICE_PORT := "RESC_API_NO_AUTH_SERVICE_PORT";
     VCS_INSTANCES_FILE_PATH := "VCS_INSTANCES_FILE_PATH";
     PROJECT_QUEUE := "projects";
     REPOSITORY_QUEUE := "repositories";
     SECRET_SCANNER_TASK_NAME := "scan_repository";
     load_vcs_instances_into_map := λ _, Ok {[ "inst" := instance ]};
     create_client_from_vcs_instance := λ _, Ok client;
     model_dump_json := dump;
     requests_post := λ _ _ _, answer;
     celery_send_task := λ _ _ _, broker |}.

Definition ok_response : result Response :=
  Ok {| status_code := 200; reason := "OK";
        response_url := "http://backend:8000/resc/v1/repositories/active" |}.

Definition unavailable_response : result Response :=
  Ok {| status_code := 503; reason := "Service Unavailable";
        response_url := "http://backend:8000/resc/v1/repositories/active" |}.

Definition broker_down : exn := ConnectionError "broker unreachable".

(** A record without a name and a record without an id. *)
Definition nameless : dict := {[ "id" := PyInt 6 ]}.
Definition idless : dict := {[ "name" := PyStr "G" ]}.

(** Project [P4]: [A], then a [broken] record, then [C]. *)
Definition client_P4 (broken : dict) : VCSConnector :=
  connector "P4" (Ok [A; broken; C]) commits_P1.

(** Project [P5]: no repositories. *)
Definition client_P5 : VCSConnector := connector "P5" (Ok []) commits_P1.

(** Project [P6]: [export_repository] answers 403 for [A]. *)
Definition forbidden : exn :=
  HTTPError "403 Client Error: Forbidden for url: https://vcs.example/P6/A".

Definition client_P6 : VCSConnector :=
  {| get_repos := λ _, Ok [A; C];
     get_latest_commit := λ _ repository_id, commits_P1 repository_id;
     export_repository := λ repository commit vcs_instance_name,
       if decide (repository = A) then Raise forbidden
       else Ok (describe "P6" repository commit vcs_instance_name) |}.

(** The deployment of [client] with an empty environment table but for
    the path of the instance definitions. *)
Definition deployment_without_backend (client : VCSConnector) : World :=
  {| env_variables :=
       {[ "VCS_INSTANCES_FILE_PATH" := "/etc/vcs_instances.json" ]};
     RESC_API_NO_AUTH_SERVICE_HOST := "RESC_API_NO_AUTH_SERVICE_HOST";
     RESC_API_NO_AUTH_SERVICE_PORT := "RESC_API_NO_AUTH_SERVICE_PORT";
     VCS_INSTANCES_FILE_PATH := "VCS_INSTANCES_FILE_PATH";
     PROJECT_QUEUE := "projects";
     REPOSITORY_QUEUE := "repositories";
     SECRET_SCANNER_TASK_NAME := "scan_repository";
     load_vcs_instances_into_map := λ _, Ok {[ "inst" := instance ]};
     create_client_from_vcs_instance := λ _, Ok client;
     model_dump_json := dump;
     requests_post := λ _ _ _, ok_response;
     celery_send_task := λ _ _ _, Ok tt |}.

Definition decoding_failed : exn := Exception "Object is not JSON serializable".

(** Project [P7]: [A] at commit abc, [B] without commits, and [D], whose
    commit fetch times out. *)
Definition commits_P7 (repository_id : pyval) : result pyval :=
  if decide (repository_id = PyStr "D") then Raise timed_out
  else commits_P1 repository_id.

Definition client_P7 : VCSConnector :=
  connector "P7" (Ok [A; B; D]) commits_P7.

(** Records whose ids are a negative integer, a boolean, [None] and an
    object of another type. *)
Definition odd_ids : list dict :=
  [record (PyInt (-12)) "negative";
   record (PyBool true) "boolean";
   record PyNone "none";
   record (PyObject "1.5" true) "float"].

End Scenario.

(** * Properties *)

(** ** Computations *)

Lemma bind_unfold {A B} (m : M A) (f : A → M B) :
  m ≫= f =
  match outcome m with
  | Ok a => Run (outcome (f a)) (effects m ++ effects (f a))
  | Raise e => Run (Raise e) (effects m)
  end.
Proof. reflexivity. Qed.

Lemma M_eta {A} (m : M A) : Run (outcome m) (effects m) = m.
Proof. by destruct m. Qed.

Lemma mret_bind {A B} (a : A) (f : A → M B) : mret a ≫= f = f a.
Proof. rewrite bind_unfold. simpl. apply M_eta. Qed.

Lemma bind_mret {A} (m : M A) : m ≫= mret = m.
Proof.
  rewrite bind_unfold. destruct m as [[a|e] t]; simpl; [|done].
  by rewrite app_nil_r.
Qed.

Lemma bind_assoc {A B C} (m : M A) (f : A → M B) (g : B → M C) :
  (m ≫= f) ≫= g = m ≫= (λ a, f a ≫= g).
Proof.
  rewrite !bind_unfold. destruct m as [[a|e] t]; simpl; [|done].
  rewrite bind_unfold. destruct (f a) as [[b|e] t']; simpl; [|done].
  by rewrite app_assoc.
Qed.

Lemma bind_perform_Ok {A B} (ev : event) (a : A) (f : A → M B) :
  perform ev (Ok a) ≫= f = Run (outcome (f a)) (ev :: effects (f a)).
Proof. reflexivity. Qed.

Lemma bind_perform_Raise {A B} (ev : event) (e : exn) (f : A → M B) :
  perform ev (Raise e) ≫= f = Run (Raise e) [ev].
Proof. reflexivity. Qed.

Lemma for_each_cons {A S} (body : A → S → M S) (x : A) (xs : list A) (acc : S) :
  for_each body (x :: xs) acc = body x acc ≫= for_each body xs.
Proof. reflexivity. Qed.

Lemma for_each_app {A S} (body : A → S → M S) (xs ys : list A) (acc : S) :
  for_each body (xs ++ ys) acc =
  for_each body xs acc ≫= for_each body ys.
Proof.
  revert acc. induction xs as [|x xs IH]; intros acc.
  - symmetry. apply mret_bind.
  - rewrite <- app_comm_cons, !for_each_cons.
    rewrite bind_assoc, !(bind_unfold (body x acc)).
    destruct (outcome (body x acc)); [|done]. by rewrite IH.
Qed.

Lemma comprehension_quiet {A B} (f : A → M B) (xs : list A) :
  (∀ x, effects (f x) = []) → effects (comprehension f xs) = [].
Proof.
  intros Hf. induction xs as [|x xs IH]; [done|].
  cbn [comprehension]. rewrite bind_unfold, Hf.
  destruct (outcome (f x)); [|done].
  rewrite bind_unfold, IH. by destruct (outcome (comprehension f xs)).
Qed.

(** For a connector that answers with a commit hash or [None], the test
    of line 54 tells the two apart. *)
Lemma truthy_commit (commit : pyval) :
  commit = PyNone ∨ (∃ hash, commit = PyStr hash ∧ hash ≠ "") →
  truthy commit = true ↔ commit ≠ PyNone.
Proof.
  intros [->|(hash & -> & Hhash)]; simpl.
  - split; [discriminate|congruence].
  - split; [discriminate|]. intros _.
    apply negb_true_iff, String.eqb_neq, Hhash.
Qed.

Lemma reports_app (t1 t2 : list event) :
  reports (t1 ++ t2) = reports t1 ++ reports t2.
Proof. apply omap_app. Qed.

Lemma enqueued_app (t1 t2 : list event) :
  enqueued (t1 ++ t2) = enqueued t1 ++ enqueued t2.
Proof. apply omap_app. Qed.

(** ** The extraction loop *)

Section Loop.

Variables (project_key : string) (vcs_client : VCSConnector)
          (vcs_instance_name : string).

Abbreviation process :=
  (process_repository project_key vcs_client vcs_instance_name).
Abbreviation has_commit' := (has_commit project_key vcs_client).
Abbreviation contained' :=
  (contained project_key vcs_client vcs_instance_name).
Abbreviation task_of' := (task_of project_key vcs_client vcs_instance_name).
Abbreviation export_of' :=
  (export_of project_key vcs_client vcs_instance_name).
Abbreviation export_honoured' :=
  (export_honoured project_key vcs_client vcs_instance_name).

(** Every path through the loop body, spelled out. *)
Lemma process_repository_unfold (repository : dict)
    (project_tasks : list Repository) :
  process repository project_tasks =
  match repository !! "name" with
  | None => Run (Raise (KeyError "name")) []
  | Some name =>
      let fetch :=
        [fetching_record project_key name;
         Get_latest_commit project_key name] in
      match get_latest_commit vcs_client project_key name with
      | Raise e =>
          if is_HTTPError e
          then Run (Ok project_tasks)
                   (fetch ++ [error_record project_key name e])
          else Run (Raise e) fetch
      | Ok commit =>
          let export :=
            fetch ++ [Export_repository repository commit vcs_instance_name] in
          match export_repository vcs_client repository commit
                  vcs_instance_name with
          | Raise e =>
              if is_HTTPError e
              then Run (Ok project_tasks)
                       (export ++ [error_record project_key name e])
              else Run (Raise e) export
          | Ok task =>
              if truthy commit
              then Run (Ok (project_tasks ++ [task]))
                       (export ++ [fetched_record project_key name])
              else Run (Ok project_tasks)
                       (export ++ [skipping_record project_key name])
          end
      end
  end.
Proof.
  unfold process_repository, getitem.
  destruct (repository !! "name") as [name|]; [|done].
  destruct (get_latest_commit vcs_client project_key name) as [commit|e] eqn:Hc.
  - destruct (export_repository vcs_client repository commit vcs_instance_name)
      as [task|e] eqn:He.
    + destruct (truthy commit) eqn:Ht;
        unfold try_except, mbind, M_bind, perform; simpl; rewrite Hc; simpl;
        rewrite He; simpl; rewrite Ht; reflexivity.
    + unfold try_except, mbind, M_bind, perform; simpl; rewrite Hc; simpl;
        rewrite He; simpl. by destruct (is_HTTPError e).
  - unfold try_except, mbind, M_bind, perform; simpl; rewrite Hc; simpl.
    by destruct (is_HTTPError e).
Qed.

Lemma process_contained (repository : dict) (project_tasks : list Repository) :
  contained' repository = true →
  outcome (process repository project_tasks) =
  Ok (project_tasks ++ option_list (task_of' repository)).
Proof.
  rewrite process_repository_unfold. unfold contained, task_of.
  destruct (repository !! "name") as [name|]; [|done].
  destruct (get_latest_commit _ _ _) as [commit|e].
  - destruct (export_repository _ _ _ _) as [task|e]; simpl.
    + destruct (truthy commit); simpl; by rewrite ?app_nil_r.
    + intros ->. simpl. by rewrite app_nil_r.
  - intros ->. simpl. by rewrite app_nil_r.
Qed.

(** The loop body neither reports to the backend nor enqueues. *)
Lemma process_quiet (repository : dict) (project_tasks : list Repository) :
  reports (effects (process repository project_tasks)) = [] ∧
  enqueued (effects (process repository project_tasks)) = [].
Proof.
  rewrite process_repository_unfold.
  destruct (repository !! "name") as [name|]; [|done].
  destruct (get_latest_commit _ _ _) as [commit|e].
  - destruct (export_repository _ _ _ _) as [task|e].
    + by destruct (truthy commit).
    + by destruct (is_HTTPError e).
  - by destruct (is_HTTPError e).
Qed.

Lemma loop_quiet (listing : list dict) (project_tasks : list Repository) :
  reports (effects (for_each process listing project_tasks)) = [] ∧
  enqueued (effects (for_each process listing project_tasks)) = [].
Proof.
  revert project_tasks.
  induction listing as [|repository listing IH]; intros project_tasks; [done|].
  rewrite for_each_cons, bind_unfold.
  destruct (process_quiet repository project_tasks) as [Hr Hq].
  destruct (outcome (process repository project_tasks)) as [acc|e]; simpl.
  - rewrite reports_app, enqueued_app, Hr, Hq.
    destruct (IH acc) as [-> ->]. done.
  - done.
Qed.

(** While every iteration is contained the loop runs to its end, and the
    descriptors come out in listing order. *)
Lemma loop_contained (listing : list dict) (project_tasks : list Repository) :
  forallb contained' listing = true →
  outcome (for_each process listing project_tasks) =
  Ok (project_tasks ++ omap task_of' listing).
Proof.
  revert project_tasks.
  induction listing as [|repository listing IH]; intros project_tasks.
  - intros _. simpl. by rewrite app_nil_r.
  - intros [Hr Hl]%andb_prop.
    rewrite for_each_cons, bind_unfold, (process_contained _ _ Hr).
    simpl outcome.
    rewrite (IH _ Hl), <- app_assoc. f_equal. f_equal.
    simpl. by destruct (task_of' repository).
Qed.

Lemma task_of_export_of (repository : dict) :
  task_of' repository =
  if has_commit' repository then export_of' repository else None.
Proof.
  unfold task_of, has_commit, export_of.
  destruct (repository !! "name") as [name|]; [|done].
  destruct (get_latest_commit _ _ _) as [commit|e]; [|done].
  destruct (export_repository _ _ _ _) as [task|e];
    by destruct (truthy commit).
Qed.

Lemma export_of_descriptor (repository : dict) (task : Repository) :
  has_commit' repository = true → export_of' repository = Some task →
  descriptor_of project_key vcs_client vcs_instance_name repository task.
Proof.
  unfold has_commit, export_of, descriptor_of.
  destruct (repository !! "name") as [name|]; [|done].
  destruct (get_latest_commit _ _ _) as [commit|e] eqn:Hc; [|done].
  destruct (export_repository _ _ _ _) as [task'|e] eqn:He; [|done].
  intros Ht [= <-]. exists name, commit. by rewrite Hc.
Qed.

(** The descriptors that the loop collects are the records with a present
    commit, in listing order, each sent through [export_repository]. *)
Lemma tasks_filter_export (listing : list dict) :
  forallb export_honoured' listing = true →
  mapM export_of' (List.filter has_commit' listing) =
  Some (omap task_of' listing).
Proof.
  induction listing as [|repository listing IH]; [done|].
  intros [Hr Hl]%andb_prop. specialize (IH Hl).
  cbn [List.filter omap list_omap]. rewrite task_of_export_of.
  unfold export_honoured in Hr.
  destruct (has_commit' repository); [|done].
  simpl in Hr. apply bool_decide_eq_true in Hr as [task Ht].
  rewrite Ht. cbn [mapM]. rewrite Ht, IH. done.
Qed.

Lemma tasks_descriptors (listing : list dict) :
  forallb export_honoured' listing = true →
  Forall2 (descriptor_of project_key vcs_client vcs_instance_name)
    (List.filter has_commit' listing) (omap task_of' listing).
Proof.
  induction listing as [|repository listing IH]; [constructor|].
  intros [Hr Hl]%andb_prop. specialize (IH Hl).
  cbn [List.filter omap list_omap]. rewrite task_of_export_of.
  unfold export_honoured in Hr.
  destruct (has_commit' repository) eqn:Hc; [|done].
  simpl in Hr. apply bool_decide_eq_true in Hr as [task Ht].
  rewrite Ht. constructor; [|done]. by apply export_of_descriptor.
Qed.

End Loop.

(** ** The active-repository report *)

Lemma extract_repository_id_and_name_quiet (listing : list dict) :
  effects (extract_repository_id_and_name listing) = [].
Proof.
  apply comprehension_quiet. intros repo. unfold getitem.
  by destruct (repo !! "id"), (repo !! "name").
Qed.

Lemma extract_repository_id_and_name_Ok (listing : list dict)
    (simple : list SimpleRepository) :
  mapM simple_of listing = Some simple →
  extract_repository_id_and_name listing = Run (Ok simple) [].
Proof.
  unfold extract_repository_id_and_name.
  revert simple. induction listing as [|repository listing IH]; intros simple.
  - by intros [= <-].
  - rewrite mapM_Some. intros Hall.
    apply Forall2_cons_inv_l in Hall as (s & simple' & Hs & Hall & ->).
    apply mapM_Some in Hall. specialize (IH _ Hall).
    cbn [comprehension]. rewrite IH. unfold simple_of in Hs. unfold getitem.
    destruct (repository !! "id") as [repo_id|]; [|done].
    destruct (repository !! "name") as [repo_name|]; [|done].
    by injection Hs as <-.
Qed.

Lemma status_error_HTTPError (response : Response) (e : exn) :
  status_error response = Some e → is_HTTPError e = true.
Proof.
  unfold status_error, raise_for_status.
  repeat case_bool_decide; simpl; by intros [= <-].
Qed.

Lemma status_error_range (response : Response) :
  is_Some (status_error response) ↔ (400 ≤ status_code response < 600)%Z.
Proof.
  unfold status_error, raise_for_status.
  repeat case_bool_decide; simpl; split; intros H'; try lia;
    try (by eexists); by destruct H' as [? [=]].
Qed.

Section Report.

Variables (world : World) (host port : string).

Hypothesis host_set :
  env_variables world !! RESC_API_NO_AUTH_SERVICE_HOST world = Some host.
Hypothesis port_set :
  env_variables world !! RESC_API_NO_AUTH_SERVICE_PORT world = Some port.

(** Every path through [send_repository_id_to_backend], once the two
    environment variables are found. *)
Lemma send_repository_id_to_backend_unfold
    (simple : list SimpleRepository) (vcs_instance_name project_key : string) :
  let url := report_url host port in
  let body := report_body project_key vcs_instance_name simple in
  let post := Post url body report_headers in
  send_repository_id_to_backend world simple vcs_instance_name project_key =
  match requests_post world url body report_headers with
  | Raise e =>
      if is_RequestException e
      then Run (Ok tt) [post; failure_record project_key e]
      else Run (Raise e) [post]
  | Ok response =>
      match status_error response with
      | Some e => Run (Ok tt) [post; failure_record project_key e]
      | None => Run (Ok tt) [post; success_record project_key]
      end
  end.
Proof.
  intros url body post.
  unfold send_repository_id_to_backend, getitem. rewrite host_set, port_set.
  rewrite !mret_bind. subst post. fold (report_url host port).
  fold (report_body project_key vcs_instance_name simple). fold report_headers.
  fold url body. generalize url body report_headers. clear url body.
  intros url body headers.
  destruct (requests_post world url body headers) as [response|e] eqn:Hp.
  - unfold status_error, try_except, raise_for_status.
    rewrite !bind_unfold. simpl.
    repeat case_bool_decide; reflexivity.
  - unfold try_except. rewrite !bind_unfold. simpl.
    by destruct (is_RequestException e).
Qed.

End Report.

(** ** The extraction as a whole *)

Section Extraction.

Variables (world : World) (project_key : string) (vcs_client : VCSConnector)
          (vcs_instance_name : string).

Abbreviation process :=
  (process_repository project_key vcs_client vcs_instance_name).
Abbreviation extraction :=
  (extract_project_information world project_key vcs_client
     vcs_instance_name).

(** The four stages of [extract_project_information] and where each can
    end the run. *)
Lemma extract_project_information_unfold :
  extraction =
  match get_repos vcs_client project_key with
  | Raise e =>
      Run (Raise e)
          [listing_record project_key vcs_instance_name; Get_repos project_key]
  | Ok listing =>
      let before := prologue project_key vcs_instance_name listing in
      let loop := for_each process listing [] in
      match outcome loop with
      | Raise e => Run (Raise e) (before ++ effects loop)
      | Ok project_tasks =>
          match outcome (extract_repository_id_and_name listing) with
          | Raise e => Run (Raise e) (before ++ effects loop)
          | Ok simple =>
              let report :=
                send_repository_id_to_backend world simple vcs_instance_name
                  project_key in
              Run match outcome report with
                  | Ok _ => Ok project_tasks
                  | Raise e => Raise e
                  end
                  (before ++ effects loop ++ effects report)
          end
      end
  end.
Proof.
  unfold extract_project_information, prologue, listing_record, listed_record.
  generalize (send_repository_id_to_backend world).
  intros report. unfold logger_info, perform.
  destruct (get_repos vcs_client project_key) as [listing|e]; [|done].
  rewrite !bind_unfold. cbn [outcome effects].
  rewrite !bind_unfold. cbn [outcome effects].
  destruct (outcome (for_each process listing [])) as [project_tasks|e].
  - rewrite !bind_unfold. cbn [outcome effects].
    rewrite extract_repository_id_and_name_quiet.
    destruct (outcome (extract_repository_id_and_name listing)) as [simple|e].
    + rewrite !bind_unfold. cbn [outcome effects].
      destruct (outcome (report simple vcs_instance_name project_key));
        cbn [outcome effects mret M_ret]; by rewrite ?app_nil_r.
    + cbn [outcome effects]. by rewrite ?app_nil_r.
  - done.
Qed.

Variables (listing : list dict) (simple : list SimpleRepository)
          (host port : string).

Hypothesis listed : get_repos vcs_client project_key = Ok listing.
Hypothesis iterations_contained :
  forallb (contained project_key vcs_client vcs_instance_name) listing = true.
Hypothesis projected : mapM simple_of listing = Some simple.
Hypothesis host_set :
  env_variables world !! RESC_API_NO_AUTH_SERVICE_HOST world = Some host.
Hypothesis port_set :
  env_variables world !! RESC_API_NO_AUTH_SERVICE_PORT world = Some port.

Let url := report_url host port.
Let body := report_body project_key vcs_instance_name simple.

(** The trace of a run whose loop ran to its end: the prologue, the loop,
    then the one request to the backend and the record of its result. *)
Lemma extract_project_information_effects :
  ∃ rest,
    effects extraction =
    prologue project_key vcs_instance_name listing
      ++ effects (for_each process listing [])
      ++ Post url body report_headers :: rest
    ∧ reports rest = [].
Proof.
  rewrite extract_project_information_unfold, listed. cbv zeta.
  rewrite (loop_contained _ _ _ _ _ iterations_contained).
  rewrite (extract_repository_id_and_name_Ok _ _ projected). cbn [outcome].
  rewrite (send_repository_id_to_backend_unfold world host port)
    by assumption. cbv zeta. fold url body.
  destruct (requests_post world url body report_headers) as [response|e].
  - destruct (status_error response); eexists; split; reflexivity.
  - destruct (is_RequestException e); eexists; split; reflexivity.
Qed.

Hypothesis delivery_contained :
  returns_or_raises is_RequestException
    (requests_post world url body report_headers) = true.

Lemma extract_project_information_outcome :
  outcome extraction =
  Ok (omap (task_of project_key vcs_client vcs_instance_name) listing).
Proof.
  rewrite extract_project_information_unfold, listed. cbv zeta.
  rewrite (loop_contained _ _ _ _ _ iterations_contained).
  rewrite (extract_repository_id_and_name_Ok _ _ projected). cbn [outcome].
  rewrite (send_repository_id_to_backend_unfold world host port)
    by assumption. cbv zeta. fold url body.
  revert delivery_contained.
  destruct (requests_post world url body report_headers) as [response|e].
  - intros _. by destruct (status_error response).
  - simpl. by intros ->.
Qed.

End Extraction.

(** The conditions gathered in [report_contained]. *)
Lemma report_contained_inv (world : World)
    (project_key vcs_instance_name : string) (listing : list dict) :
  report_contained world project_key vcs_instance_name listing = true →
  ∃ simple host port,
    mapM simple_of listing = Some simple ∧
    env_variables world !! RESC_API_NO_AUTH_SERVICE_HOST world = Some host ∧
    env_variables world !! RESC_API_NO_AUTH_SERVICE_PORT world = Some port ∧
    returns_or_raises is_RequestException
      (requests_post world (report_url host port)
         (report_body project_key vcs_instance_name simple) report_headers)
    = true.
Proof.
  unfold report_contained.
  destruct (mapM simple_of listing) as [simple|]; [|done].
  destruct (env_variables world !! RESC_API_NO_AUTH_SERVICE_HOST world)
    as [host|]; [|done].
  destruct (env_variables world !! RESC_API_NO_AUTH_SERVICE_PORT world)
    as [port|]; [|done].
  intros H. by exists simple, host, port.
Qed.

(** ** The dispatch loop *)

Section Dispatch.

Variables (world : World) (task_name queue_name : string).

Abbreviation send := (send_tasks_to_celery_queue world task_name queue_name).
Abbreviation send_event :=
  (λ task, Send_task task_name (task_kwargs world task) queue_name).

Lemma send_tasks_to_celery_queue_cons (task : Repository)
    (project_tasks : list Repository) :
  send (task :: project_tasks) =
  match celery_send_task world task_name (task_kwargs world task)
          queue_name with
  | Ok _ =>
      Run (outcome (send project_tasks))
          (send_event task :: effects (send project_tasks))
  | Raise e => Run (Raise e) [send_event task]
  end.
Proof.
  unfold send_tasks_to_celery_queue. cbn [for_each]. rewrite bind_unfold.
  fold (task_kwargs world task). unfold perform. cbn [outcome effects].
  by destruct (celery_send_task _ _ _ _) as [[]|e].
Qed.

(** While the broker accepts, one message per descriptor is sent, in
    order. *)
Lemma send_tasks_to_celery_queue_accepted (project_tasks : list Repository) :
  forallb (accepted world task_name queue_name) project_tasks = true →
  send project_tasks = Run (Ok tt) (map send_event project_tasks).
Proof.
  induction project_tasks as [|task project_tasks IH]; [done|].
  intros [Ht Hl]%andb_prop. rewrite send_tasks_to_celery_queue_cons.
  unfold accepted in Ht.
  destruct (celery_send_task _ _ _ _); [|done]. by rewrite (IH Hl).
Qed.

(** The first refusal ends the loop. *)
Lemma send_tasks_to_celery_queue_refused (before after : list Repository)
    (task : Repository) (e : exn) :
  forallb (accepted world task_name queue_name) before = true →
  celery_send_task world task_name (task_kwargs world task) queue_name
  = Raise e →
  send (before ++ task :: after) =
  Run (Raise e) (map send_event (before ++ [task])).
Proof.
  intros Hb He. induction before as [|task' before IH].
  - simpl app. by rewrite send_tasks_to_celery_queue_cons, He.
  - apply andb_prop in Hb as [Ht Hb].
    rewrite <- !app_comm_cons, send_tasks_to_celery_queue_cons.
    unfold accepted in Ht.
    destruct (celery_send_task _ _ (task_kwargs world task') _); [|done].
    by rewrite (IH Hb).
Qed.

(** The dispatch loop sends no report. *)
Lemma send_tasks_to_celery_queue_quiet (project_tasks : list Repository) :
  reports (effects (send project_tasks)) = [].
Proof.
  induction project_tasks as [|task project_tasks IH]; [done|].
  rewrite send_tasks_to_celery_queue_cons.
  by destruct (celery_send_task _ _ _ _).
Qed.

Lemma enqueued_send_events (project_tasks : list Repository) :
  enqueued (map send_event project_tasks) =
  map (scan_message world task_name queue_name) project_tasks.
Proof. induction project_tasks as [|task l IH]; [done|]. simpl. by f_equal. Qed.

End Dispatch.

(** ** The collection entry point *)

Section Collection.

Variables (world : World) (project_key vcs_instance_name path : string)
          (instances : gmap string VCSInstance) (instance : VCSInstance)
          (vcs_client : VCSConnector).

Hypothesis path_set :
  env_variables world !! VCS_INSTANCES_FILE_PATH world = Some path.
Hypothesis loaded : load_vcs_instances_into_map world path = Ok instances.
Hypothesis configured : instances !! vcs_instance_name = Some instance.
Hypothesis created :
  create_client_from_vcs_instance world instance = Ok vcs_client.

(** Once the connector is there, a run is the extraction followed by the
    dispatch of what it returned. *)
Lemma collect_repositories_unfold :
  let pipeline :=
    extract_project_information world project_key vcs_client
      vcs_instance_name
    ≫= send_tasks_to_celery_queue world (SECRET_SCANNER_TASK_NAME world)
         (REPOSITORY_QUEUE world) in
  collect_repositories world project_key vcs_instance_name =
  Run (outcome pipeline)
      ([Load_vcs_instances path; received_record project_key;
        Create_client vcs_instance_name] ++ effects pipeline).
Proof.
  unfold collect_repositories, getitem.
  rewrite path_set, mret_bind, loaded, bind_perform_Ok. cbv beta.
  unfold logger_info. rewrite bind_perform_Ok. cbv beta.
  by rewrite configured, mret_bind, created, bind_perform_Ok.
Qed.

(** The reports of a run are those of its extraction. *)
Lemma collect_repositories_reports :
  reports (effects (collect_repositories world project_key
                      vcs_instance_name)) =
  reports (effects (extract_project_information world project_key
                      vcs_client vcs_instance_name)).
Proof.
  rewrite collect_repositories_unfold. cbv zeta. cbn [effects].
  rewrite reports_app, bind_unfold. cbn [reports omap list_omap app].
  destruct (outcome (extract_project_information _ _ _ _)); [|done].
  cbn [effects].
  by rewrite reports_app, send_tasks_to_celery_queue_quiet, app_nil_r.
Qed.

End Collection.

(** ** Shared facts about a run of the extraction *)

Section Run.

Variables (world : World) (project_key : string) (vcs_client : VCSConnector)
          (vcs_instance_name : string).

Abbreviation process :=
  (process_repository project_key vcs_client vcs_instance_name).
Abbreviation extraction :=
  (extract_project_information world project_key vcs_client
     vcs_instance_name).

(** Whatever ends the run after the listing, the trace starts with the
    prologue and the effects of the loop. *)
Lemma extraction_effects_loop (listing : list dict) :
  get_repos vcs_client project_key = Ok listing →
  ∃ rest,
    effects extraction =
    prologue project_key vcs_instance_name listing
      ++ effects (for_each process listing []) ++ rest.
Proof.
  intros Hlisted. rewrite extract_project_information_unfold, Hlisted.
  cbv zeta. destruct (outcome (for_each process listing [])).
  - destruct (outcome (extract_repository_id_and_name listing)).
    + by eexists.
    + exists []. by rewrite app_nil_r.
  - exists []. by rewrite app_nil_r.
Qed.

(** An exception that leaves the loop leaves the extraction. *)
Lemma extraction_loop_raises (listing : list dict) (e : exn) :
  get_repos vcs_client project_key = Ok listing →
  outcome (for_each process listing []) = Raise e →
  extraction =
  Run (Raise e)
      (prologue project_key vcs_instance_name listing
         ++ effects (for_each process listing [])).
Proof.
  intros Hlisted Hloop.
  rewrite extract_project_information_unfold, Hlisted. cbv zeta.
  by rewrite Hloop.
Qed.

(** A run whose loop ran to its end sent one report, with one entry per
    listed record. *)
Lemma extraction_reports (listing : list dict) (simple : list SimpleRepository)
    (host port : string) :
  get_repos vcs_client project_key = Ok listing →
  forallb (contained project_key vcs_client vcs_instance_name) listing = true →
  mapM simple_of listing = Some simple →
  env_variables world !! RESC_API_NO_AUTH_SERVICE_HOST world = Some host →
  env_variables world !! RESC_API_NO_AUTH_SERVICE_PORT world = Some port →
  reports (effects extraction) =
  [report_body project_key vcs_instance_name simple].
Proof.
  intros Hlisted Hloop Hsimple Hhost Hport.
  destruct (extract_project_information_effects world project_key vcs_client
              vcs_instance_name listing simple host port)
    as (rest & -> & Hrest); try done.
  rewrite !reports_app.
  destruct (loop_quiet project_key vcs_client vcs_instance_name listing [])
    as [-> _].
  simpl. by rewrite Hrest.
Qed.

End Run.

Lemma well_formed_simple_of (listing : list dict) :
  forallb well_formed listing = true →
  ∃ simple, mapM simple_of listing = Some simple ∧
            Forall2 entry_of listing simple.
Proof.
  induction listing as [|repository listing IH].
  - intros _. exists []. split; [done|constructor].
  - intros [Hr Hl]%andb_prop. destruct (IH Hl) as (simple & Hs & Hall).
    unfold well_formed in Hr.
    destruct (repository !! "id") as [repo_id|] eqn:Hid; [|done].
    destruct (repository !! "name") as [repo_name|] eqn:Hname; [|done].
    exists ({| simple_id := py_str repo_id; simple_name := repo_name |}
              :: simple).
    split.
    + apply mapM_Some. constructor; [|by apply mapM_Some].
      unfold simple_of. by rewrite Hid, Hname.
    + constructor; [|done]. by exists repo_id, repo_name.
Qed.

(** * The claims *)

(** ** Dispatch of the repositories with a commit *)

(** C1, as the code has it. In a run that reaches its end, for every
    repository of the listing whose fetched latest commit
    is present, [extract_project_information] returns exactly one task
    descriptor, built from that record and the instance name of the run,
    and [send_tasks_to_celery_queue] then enqueues exactly one message
    per descriptor, carrying the serialized descriptor: the records with
    a commit, the descriptors and the messages correspond one to one, in
    order. Presence of a commit is the truth test of line 54; the run is
    one that reaches its end, with a connector that honours the contract
    of [export_repository] and a broker that accepts the messages. *)
Theorem one_scan_task_per_repository_with_commit
    (world : World) (project_key : string) (vcs_client : VCSConnector)
    (vcs_instance_name task_name queue_name : string) (listing : list dict) :
  get_repos vcs_client project_key = Ok listing →
  forallb (contained project_key vcs_client vcs_instance_name) listing = true →
  forallb (export_honoured project_key vcs_client vcs_instance_name) listing
  = true →
  report_contained world project_key vcs_instance_name listing = true →
  (∀ task, accepted world task_name queue_name task = true) →
  ∃ project_tasks,
    outcome (extract_project_information world project_key vcs_client
               vcs_instance_name) = Ok project_tasks ∧
    Forall2 (descriptor_of project_key vcs_client vcs_instance_name)
      (List.filter (has_commit project_key vcs_client) listing)
      project_tasks ∧
    outcome (send_tasks_to_celery_queue world task_name queue_name
               project_tasks) = Ok tt ∧
    enqueued (effects (send_tasks_to_celery_queue world task_name queue_name
                         project_tasks)) =
    map (scan_message world task_name queue_name) project_tasks.
Proof.
  intros Hlisted Hloop Hexport Hreport Hbroker.
  apply report_contained_inv in Hreport
    as (simple & host & port & Hsimple & Hhost & Hport & Hpost).
  exists (omap (task_of project_key vcs_client vcs_instance_name) listing).
  split; [|split].
  - by apply (extract_project_information_outcome world project_key vcs_client
                vcs_instance_name listing simple host port).
  - by apply tasks_descriptors.
  - rewrite send_tasks_to_celery_queue_accepted.
    + split; [done|]. apply enqueued_send_events.
    + apply forallb_forall. intros task _. apply Hbroker.
Qed.

Lemma one_scan_task_per_repository_with_commit_witness :
  ∃ project_tasks,
    outcome (extract_project_information
               (Scenario.deployment Scenario.client_P1 Scenario.ok_response
                  (Ok tt))
               "P1" Scenario.client_P1 "inst") = Ok project_tasks ∧
    Forall2 (descriptor_of "P1" Scenario.client_P1 "inst")
      (List.filter (has_commit "P1" Scenario.client_P1)
         [Scenario.A; Scenario.B; Scenario.C])
      project_tasks ∧
    outcome (send_tasks_to_celery_queue
               (Scenario.deployment Scenario.client_P1 Scenario.ok_response
                  (Ok tt))
               "scan_repository" "repositories" project_tasks) = Ok tt ∧
    enqueued (effects (send_tasks_to_celery_queue
                         (Scenario.deployment Scenario.client_P1
                            Scenario.ok_response (Ok tt))
                         "scan_repository" "repositories" project_tasks)) =
    map (scan_message
           (Scenario.deployment Scenario.client_P1 Scenario.ok_response (Ok tt))
           "scan_repository" "repositories") project_tasks.
Proof.
  apply (one_scan_task_per_repository_with_commit
           (Scenario.deployment Scenario.client_P1 Scenario.ok_response (Ok tt))
           "P1" Scenario.client_P1 "inst" "scan_repository" "repositories"
           [Scenario.A; Scenario.B; Scenario.C]).
  - reflexivity.
  - vm_compute; reflexivity.
  - vm_compute; reflexivity.
  - vm_compute; reflexivity.
  - intros task. reflexivity.
Defined.

(** The run of scenario [P1]: two messages, for [A] and for [C]. *)
Example scenario_P1_messages :
  enqueued (effects (collect_repositories
                       (Scenario.deployment Scenario.client_P1
                          Scenario.ok_response (Ok tt)) "P1" "inst")) =
  [("scan_repository", [("repository", "inst:P1/1@abc")], "repositories");
   ("scan_repository", [("repository", "inst:P1/c-3@def")], "repositories")].
Proof. vm_compute. reflexivity. Qed.

(** C1, as stated, fails: a present commit alone does not ensure a task.
    In scenario [P7] the commit of [A] is present, but the fetch for [D]
    times out, so the extraction returns no task list at all and nothing
    is enqueued for [A]. *)
Lemma present_commit_does_not_ensure_task :
  ¬ (∀ (world : World) (project_key : string) (vcs_client : VCSConnector)
       (vcs_instance_name task_name queue_name : string)
       (listing : list dict),
       get_repos vcs_client project_key = Ok listing →
       forallb (export_honoured project_key vcs_client vcs_instance_name)
         listing = true →
       ∃ project_tasks,
         outcome (extract_project_information world project_key vcs_client
                    vcs_instance_name) = Ok project_tasks ∧
         Forall2 (descriptor_of project_key vcs_client vcs_instance_name)
           (List.filter (has_commit project_key vcs_client) listing)
           project_tasks ∧
         outcome (send_tasks_to_celery_queue world task_name queue_name
                    project_tasks) = Ok tt ∧
         enqueued (effects (send_tasks_to_celery_queue world task_name
                              queue_name project_tasks)) =
         map (scan_message world task_name queue_name) project_tasks).
Proof.
  intros Hclaim.
  destruct (Hclaim
    (Scenario.deployment Scenario.client_P7 Scenario.ok_response (Ok tt))
    "P7" Scenario.client_P7 "inst" "scan_repository" "repositories"
    [Scenario.A; Scenario.B; Scenario.D])
    as (project_tasks & Hrun & _).
  - reflexivity.
  - vm_compute; reflexivity.
  - vm_compute in Hrun. discriminate Hrun.
Qed.

(** The run of that scenario: [A] has a commit, and the queue gets
    nothing. *)
Example scenario_P7_timeout :
  let run :=
    collect_repositories
      (Scenario.deployment Scenario.client_P7 Scenario.ok_response (Ok tt))
      "P7" "inst" in
  has_commit "P7" Scenario.client_P7 Scenario.A = true ∧
  outcome run = Raise Scenario.timed_out ∧
  enqueued (effects run) = [] ∧
  reports (effects run) = [].
Proof. vm_compute. done. Qed.

(** ** Order of the descriptors *)

(** C8. The task list that [extract_project_information] returns is the
    listing, filtered to the repositories with a present latest commit,
    each sent through [export_repository], in listing order. *)
Theorem tasks_follow_listing_order
    (world : World) (project_key : string) (vcs_client : VCSConnector)
    (vcs_instance_name : string) (listing : list dict) :
  get_repos vcs_client project_key = Ok listing →
  forallb (contained project_key vcs_client vcs_instance_name) listing = true →
  forallb (export_honoured project_key vcs_client vcs_instance_name) listing
  = true →
  report_contained world project_key vcs_instance_name listing = true →
  ∃ project_tasks,
    outcome (extract_project_information world project_key vcs_client
               vcs_instance_name) = Ok project_tasks ∧
    mapM (export_of project_key vcs_client vcs_instance_name)
      (List.filter (has_commit project_key vcs_client) listing)
    = Some project_tasks.
Proof.
  intros Hlisted Hloop Hexport Hreport.
  apply report_contained_inv in Hreport
    as (simple & host & port & Hsimple & Hhost & Hport & Hpost).
  exists (omap (task_of project_key vcs_client vcs_instance_name) listing).
  split.
  - by apply (extract_project_information_outcome world project_key vcs_client
                vcs_instance_name listing simple host port).
  - by apply tasks_filter_export.
Qed.

Lemma tasks_follow_listing_order_witness :
  ∃ project_tasks,
    outcome (extract_project_information
               (Scenario.deployment Scenario.client_P1 Scenario.ok_response
                  (Ok tt))
               "P1" Scenario.client_P1 "inst") = Ok project_tasks ∧
    mapM (export_of "P1" Scenario.client_P1 "inst")
      (List.filter (has_commit "P1" Scenario.client_P1)
         [Scenario.A; Scenario.B; Scenario.C])
    = Some project_tasks.
Proof.
  apply (tasks_follow_listing_order
           (Scenario.deployment Scenario.client_P1 Scenario.ok_response (Ok tt))
           "P1" Scenario.client_P1 "inst"
           [Scenario.A; Scenario.B; Scenario.C]).
  - reflexivity.
  - vm_compute; reflexivity.
  - vm_compute; reflexivity.
  - vm_compute; reflexivity.
Defined.

(** The descriptors of scenario [P1], [A] before [C]. *)
Example scenario_P1_tasks :
  outcome (extract_project_information
             (Scenario.deployment Scenario.client_P1 Scenario.ok_response
                (Ok tt))
             "P1" Scenario.client_P1 "inst") =
  Ok [Scenario.describe "P1" Scenario.A (PyStr "abc") "inst";
      Scenario.describe "P1" Scenario.C (PyStr "def") "inst"].
Proof. vm_compute. reflexivity. Qed.

(** ** Repositories without commits *)

(** C2, as the code has it. In a run that reaches its end, a listed
    repository whose fetched latest commit is absent yields
    no scan task: the list that [extract_project_information] returns is
    the one that the loop yields on the listing without that record. The
    repository is nevertheless in the one report sent to the backend, at
    its position in the listing, because the payload is built from the
    full raw listing. *)
Theorem repository_without_commit_reported_not_scanned
    (world : World) (project_key : string) (vcs_client : VCSConnector)
    (vcs_instance_name : string) (before after : list dict)
    (repository : dict) (name repo_id commit : pyval) :
  get_repos vcs_client project_key = Ok (before ++ repository :: after) →
  forallb (contained project_key vcs_client vcs_instance_name)
    (before ++ repository :: after) = true →
  report_contained world project_key vcs_instance_name
    (before ++ repository :: after) = true →
  repository !! "name" = Some name →
  repository !! "id" = Some repo_id →
  get_latest_commit vcs_client project_key name = Ok commit →
  truthy commit = false →
  ∃ project_tasks body,
    outcome (extract_project_information world project_key vcs_client
               vcs_instance_name) = Ok project_tasks ∧
    outcome (for_each
               (process_repository project_key vcs_client vcs_instance_name)
               (before ++ after) []) = Ok project_tasks ∧
    reports (effects (extract_project_information world project_key
                        vcs_client vcs_instance_name)) = [body] ∧
    repositories body !! length before =
    Some {| simple_id := py_str repo_id; simple_name := name |}.
Proof.
  intros Hlisted Hloop Hreport Hname Hid Hcommit Habsent.
  apply report_contained_inv in Hreport
    as (simple & host & port & Hsimple & Hhost & Hport & Hpost).
  exists (omap (task_of project_key vcs_client vcs_instance_name)
            (before ++ after)),
         (report_body project_key vcs_instance_name simple).
  assert (task_of project_key vcs_client vcs_instance_name repository = None)
    as Hnone.
  { unfold task_of. rewrite Hname, Hcommit, Habsent.
    by destruct (export_repository _ _ _ _). }
  repeat split.
  - rewrite (extract_project_information_outcome world project_key vcs_client
               vcs_instance_name _ simple host port) by done.
    f_equal. rewrite !omap_app. cbn [omap list_omap]. by rewrite Hnone.
  - rewrite loop_contained; [done|].
    rewrite forallb_app in Hloop. apply andb_prop in Hloop as [Hb Ha].
    cbn [forallb] in Ha. apply andb_prop in Ha as [_ Ha].
    by rewrite forallb_app, Hb, Ha.
  - by apply (extraction_reports world project_key vcs_client
                vcs_instance_name (before ++ repository :: after)
                simple host port).
  - unfold report_body. cbn [repositories]. apply mapM_Some in Hsimple.
    destruct (Forall2_lookup_l _ _ _ (length before) repository Hsimple)
      as (entry & -> & Hentry).
    { by apply list_lookup_middle. }
    unfold simple_of in Hentry. rewrite Hid, Hname in Hentry.
    by injection Hentry as <-.
Qed.

Lemma repository_without_commit_reported_not_scanned_witness :
  ∃ project_tasks body,
    outcome (extract_project_information
               (Scenario.deployment Scenario.client_P1 Scenario.ok_response
                  (Ok tt))
               "P1" Scenario.client_P1 "inst") = Ok project_tasks ∧
    outcome (for_each (process_repository "P1" Scenario.client_P1 "inst")
               ([Scenario.A] ++ [Scenario.C]) []) = Ok project_tasks ∧
    reports (effects (extract_project_information
                        (Scenario.deployment Scenario.client_P1
                           Scenario.ok_response (Ok tt))
                        "P1" Scenario.client_P1 "inst")) = [body] ∧
    repositories body !! length [Scenario.A] =
    Some {| simple_id := py_str (PyInt 2); simple_name := PyStr "B" |}.
Proof.
  apply (repository_without_commit_reported_not_scanned
           (Scenario.deployment Scenario.client_P1 Scenario.ok_response (Ok tt))
           "P1" Scenario.client_P1 "inst" [Scenario.A] [Scenario.C]
           Scenario.B (PyStr "B") (PyInt 2) PyNone).
  - reflexivity.
  - vm_compute; reflexivity.
  - vm_compute; reflexivity.
  - vm_compute; reflexivity.
  - vm_compute; reflexivity.
  - reflexivity.
  - reflexivity.
Defined.

(** The payload of scenario [P1] lists all three repositories. *)
Example scenario_P1_report :
  reports (effects (collect_repositories
                      (Scenario.deployment Scenario.client_P1
                         Scenario.ok_response (Ok tt)) "P1" "inst")) =
  [{| active_project_key := "P1";
      active_vcs_instance_name := "inst";
      repositories :=
        [{| simple_id := "1"; simple_name := PyStr "A" |};
         {| simple_id := "2"; simple_name := PyStr "B" |};
         {| simple_id := "c-3"; simple_name := PyStr "C" |}] |}].
Proof. vm_compute. reflexivity. Qed.

(** C2, as stated, fails: an absent commit alone does not ensure that
    the repository is reported. In scenario [P7] the commit of [B] is
    absent, but the fetch for [D] times out before the report is built,
    so [B] is in no payload. *)
Lemma absent_commit_does_not_ensure_report :
  ¬ (∀ (world : World) (project_key : string) (vcs_client : VCSConnector)
       (vcs_instance_name : string) (before after : list dict)
       (repository : dict) (name repo_id commit : pyval),
       get_repos vcs_client project_key = Ok (before ++ repository :: after) →
       repository !! "name" = Some name →
       repository !! "id" = Some repo_id →
       get_latest_commit vcs_client project_key name = Ok commit →
       truthy commit = false →
       ∃ project_tasks body,
         outcome (extract_project_information world project_key vcs_client
                    vcs_instance_name) = Ok project_tasks ∧
         outcome (for_each
                    (process_repository project_key vcs_client
                       vcs_instance_name)
                    (before ++ after) []) = Ok project_tasks ∧
         reports (effects (extract_project_information world project_key
                             vcs_client vcs_instance_name)) = [body] ∧
         repositories body !! length before =
         Some {| simple_id := py_str repo_id; simple_name := name |}).
Proof.
  intros Hclaim.
  destruct (Hclaim
    (Scenario.deployment Scenario.client_P7 Scenario.ok_response (Ok tt))
    "P7" Scenario.client_P7 "inst" [Scenario.A] [Scenario.D] Scenario.B
    (PyStr "B") (PyInt 2) PyNone)
    as (project_tasks & body & _ & _ & Hreports & _).
  - reflexivity.
  - vm_compute; reflexivity.
  - vm_compute; reflexivity.
  - reflexivity.
  - reflexivity.
  - vm_compute in Hreports. discriminate Hreports.
Qed.

(** ** Failures of a commit fetch *)

(** C3, as the code has it. If fetching the latest commit of a listed
    repository raises an [HTTPError], the loop logs it, leaves the task
    list as it was and goes on with every repository after it: the loop
    over the listing is the loop over the records before, the three
    records of the failed iteration, and the loop over the records after,
    started from the same task list. Other exceptions, timeouts and
    connection errors among them, are not caught by line 63. *)
Theorem http_error_of_one_repository_is_isolated
    (project_key : string) (vcs_client : VCSConnector)
    (vcs_instance_name : string) (before after : list dict)
    (repository : dict) (name : pyval) (e : exn) :
  repository !! "name" = Some name →
  get_latest_commit vcs_client project_key name = Raise e →
  is_HTTPError e = true →
  skips_and_continues project_key vcs_client vcs_instance_name
    before repository after name e.
Proof.
  intros Hname Hfetch Hhttp. unfold skips_and_continues. cbv zeta.
  assert (∀ project_tasks,
    process_repository project_key vcs_client vcs_instance_name repository
      project_tasks =
    Run (Ok project_tasks) (skipped_records project_key name e)) as Hstep.
  { intros project_tasks.
    by rewrite process_repository_unfold, Hname, Hfetch, Hhttp. }
  split; [done|].
  rewrite for_each_app, !bind_unfold.
  destruct (outcome (for_each _ before [])) as [project_tasks|]; [|done].
  by rewrite for_each_cons, bind_unfold, Hstep.
Qed.

Lemma http_error_of_one_repository_is_isolated_witness :
  skips_and_continues "P3" (Scenario.client_P3 Scenario.not_found) "inst"
    [] Scenario.D [Scenario.E] (PyStr "D") Scenario.not_found.
Proof.
  apply (http_error_of_one_repository_is_isolated
           "P3" (Scenario.client_P3 Scenario.not_found) "inst"
           [] [Scenario.E] Scenario.D (PyStr "D") Scenario.not_found).
  - vm_compute; reflexivity.
  - reflexivity.
  - reflexivity.
Defined.

(** Scenario [P3] with an [HTTPError]: only [E] is dispatched, and both
    [D] and [E] are in the report. *)
Example scenario_P3_http_error :
  let run :=
    collect_repositories
      (Scenario.deployment (Scenario.client_P3 Scenario.not_found)
         Scenario.ok_response (Ok tt)) "P3" "inst" in
  outcome run = Ok tt ∧
  enqueued (effects run) =
  [("scan_repository", [("repository", "inst:P3/5@xyz")], "repositories")] ∧
  map repositories (reports (effects run)) =
  [[{| simple_id := "4"; simple_name := PyStr "D" |};
    {| simple_id := "5"; simple_name := PyStr "E" |}]].
Proof. vm_compute. done. Qed.

(** C3, as stated, fails: a timeout is a transport error, yet the claimed
    isolation does not hold for every [RequestException]. In scenario
    [P3] the commit fetch of [D] times out; the exception leaves the loop
    and [E] is never processed. *)
Lemma timeout_of_one_repository_aborts_batch :
  ¬ (∀ (project_key : string) (vcs_client : VCSConnector)
       (vcs_instance_name : string) (before after : list dict)
       (repository : dict) (name : pyval) (e : exn),
       repository !! "name" = Some name →
       get_latest_commit vcs_client project_key name = Raise e →
       is_RequestException e = true →
       skips_and_continues project_key vcs_client vcs_instance_name
         before repository after name e).
Proof.
  intros Hclaim.
  destruct (Hclaim "P3" (Scenario.client_P3 Scenario.timed_out) "inst"
              [] [Scenario.E] Scenario.D (PyStr "D") Scenario.timed_out)
    as [Hstep _]; [vm_compute; reflexivity|reflexivity|reflexivity|].
  specialize (Hstep []). vm_compute in Hstep. discriminate Hstep.
Qed.

(** What the run of that scenario does: it raises the timeout after the
    fetch for [D], without an error record, a fetch for [E], a report or
    a message. *)
Example scenario_P3_timeout :
  let run :=
    collect_repositories
      (Scenario.deployment (Scenario.client_P3 Scenario.timed_out)
         Scenario.ok_response (Ok tt)) "P3" "inst" in
  outcome run = Raise Scenario.timed_out ∧
  effects run =
  [Load_vcs_instances "/etc/vcs_instances.json";
   received_record "P3";
   Create_client "inst";
   listing_record "P3" "inst";
   Get_repos "P3";
   listed_record "P3" 2;
   fetching_record "P3" (PyStr "D");
   Get_latest_commit "P3" (PyStr "D")].
Proof. vm_compute. done. Qed.

(** ** The one report of a run *)

(** C4, as the code has it. A collection run in which the listing call
    succeeds and the loop runs to its end (each connector call returns or
    raises an [HTTPError]; the records carry id and name; the address of
    the backend is configured) sends exactly one report, after
    everything that the loop did, whatever the number of tasks and
    whatever the dispatch does afterwards. *)
Theorem one_report_after_completed_loop
    (world : World) (project_key vcs_instance_name path : string)
    (instances : gmap string VCSInstance) (instance : VCSInstance)
    (vcs_client : VCSConnector) (listing : list dict)
    (simple : list SimpleRepository) (host port : string) :
  env_variables world !! VCS_INSTANCES_FILE_PATH world = Some path →
  load_vcs_instances_into_map world path = Ok instances →
  instances !! vcs_instance_name = Some instance →
  create_client_from_vcs_instance world instance = Ok vcs_client →
  get_repos vcs_client project_key = Ok listing →
  forallb (contained project_key vcs_client vcs_instance_name) listing = true →
  mapM simple_of listing = Some simple →
  env_variables world !! RESC_API_NO_AUTH_SERVICE_HOST world = Some host →
  env_variables world !! RESC_API_NO_AUTH_SERVICE_PORT world = Some port →
  let extraction :=
    extract_project_information world project_key vcs_client
      vcs_instance_name in
  let body := report_body project_key vcs_instance_name simple in
  reports (effects (collect_repositories world project_key
                      vcs_instance_name)) = [body] ∧
  reports (effects extraction) = [body] ∧
  ∃ rest,
    effects extraction =
    prologue project_key vcs_instance_name listing
      ++ effects (for_each
                    (process_repository project_key vcs_client
                       vcs_instance_name) listing [])
      ++ Post (report_url host port) body report_headers :: rest.
Proof.
  intros Hpath Hload Hinstance Hclient Hlisted Hloop Hsimple Hhost Hport
    extraction body.
  assert (reports (effects extraction) = [body]) as Hreports.
  { by apply (extraction_reports world project_key vcs_client
                vcs_instance_name listing simple host port). }
  split; [|split; [done|]].
  - by rewrite (collect_repositories_reports world project_key
                  vcs_instance_name path instances instance vcs_client).
  - destruct (extract_project_information_effects world project_key
                vcs_client vcs_instance_name listing simple host port)
      as (rest & Hrun & _); try done.
    by exists rest.
Qed.

(** A run without a single task: [B] alone, which has no commits, and a
    backend that answers 503. *)
Lemma one_report_after_completed_loop_witness :
  let client :=
    Scenario.connector "P1" (Ok [Scenario.B]) Scenario.commits_P1 in
  let world :=
    Scenario.deployment client Scenario.unavailable_response (Ok tt) in
  let extraction := extract_project_information world "P1" client "inst" in
  let body :=
    report_body "P1" "inst"
      [{| simple_id := "2"; simple_name := PyStr "B" |}] in
  enqueued (effects (collect_repositories world "P1" "inst")) = [] ∧
  reports (effects (collect_repositories world "P1" "inst")) = [body] ∧
  reports (effects extraction) = [body] ∧
  ∃ rest,
    effects extraction =
    prologue "P1" "inst" [Scenario.B]
      ++ effects (for_each (process_repository "P1" client "inst")
                    [Scenario.B] [])
      ++ Post (report_url "backend" "8000") body report_headers :: rest.
Proof.
  intros client world extraction body. split; [vm_compute; reflexivity|].
  apply (one_report_after_completed_loop world "P1" "inst"
           "/etc/vcs_instances.json" {[ "inst" := Scenario.instance ]}
           Scenario.instance client [Scenario.B]
           [{| simple_id := "2"; simple_name := PyStr "B" |}]
           "backend" "8000").
  - vm_compute; reflexivity.
  - reflexivity.
  - vm_compute; reflexivity.
  - reflexivity.
  - reflexivity.
  - vm_compute; reflexivity.
  - vm_compute; reflexivity.
  - vm_compute; reflexivity.
  - vm_compute; reflexivity.
Defined.

(** C4, as stated, fails: in scenario [P3] with a timeout the listing
    call succeeds and the run sends no report. *)
Lemma listing_success_does_not_ensure_report :
  ¬ (∀ (world : World) (project_key vcs_instance_name path : string)
       (instances : gmap string VCSInstance) (instance : VCSInstance)
       (vcs_client : VCSConnector) (listing : list dict),
       env_variables world !! VCS_INSTANCES_FILE_PATH world = Some path →
       load_vcs_instances_into_map world path = Ok instances →
       instances !! vcs_instance_name = Some instance →
       create_client_from_vcs_instance world instance = Ok vcs_client →
       get_repos vcs_client project_key = Ok listing →
       length (reports (effects (collect_repositories world project_key
                                   vcs_instance_name))) = 1).
Proof.
  intros Hclaim.
  specialize (Hclaim
    (Scenario.deployment (Scenario.client_P3 Scenario.timed_out)
       Scenario.ok_response (Ok tt))
    "P3" "inst" "/etc/vcs_instances.json" {[ "inst" := Scenario.instance ]}
    Scenario.instance (Scenario.client_P3 Scenario.timed_out)
    [Scenario.D; Scenario.E]).
  assert (length (reports (effects (collect_repositories
            (Scenario.deployment (Scenario.client_P3 Scenario.timed_out)
               Scenario.ok_response (Ok tt)) "P3" "inst"))) = 0) as Hnone.
  { vm_compute; reflexivity. }
  rewrite Hnone in Hclaim. discriminate Hclaim.
  - vm_compute; reflexivity.
  - reflexivity.
  - vm_compute; reflexivity.
  - reflexivity.
  - reflexivity.
Qed.

(** ** Failures of an enqueue *)

(** C5, as the code has it. The dispatch loop has no handler: the
    descriptors are enqueued in order until the broker refuses one; that
    exception leaves [send_tasks_to_celery_queue], and no later
    descriptor is attempted. *)
Theorem enqueue_failure_ends_dispatch
    (world : World) (task_name queue_name : string)
    (before after : list Repository) (task : Repository) (e : exn) :
  forallb (accepted world task_name queue_name) before = true →
  celery_send_task world task_name (task_kwargs world task) queue_name
  = Raise e →
  let run :=
    send_tasks_to_celery_queue world task_name queue_name
      (before ++ task :: after) in
  outcome run = Raise e ∧
  enqueued (effects run) =
  map (scan_message world task_name queue_name) (before ++ [task]).
Proof.
  intros Hbefore Hrefused run. subst run.
  rewrite (send_tasks_to_celery_queue_refused _ _ _ _ _ _ e Hbefore Hrefused).
  split; [done|]. apply enqueued_send_events.
Qed.

Lemma enqueue_failure_ends_dispatch_witness :
  let world :=
    Scenario.deployment Scenario.client_P1 Scenario.ok_response
      (Raise Scenario.broker_down) in
  let task_A := Scenario.describe "P1" Scenario.A (PyStr "abc") "inst" in
  let task_C := Scenario.describe "P1" Scenario.C (PyStr "def") "inst" in
  let run :=
    send_tasks_to_celery_queue world "scan_repository" "repositories"
      ([] ++ task_A :: [task_C]) in
  outcome run = Raise Scenario.broker_down ∧
  enqueued (effects run) =
  map (scan_message world "scan_repository" "repositories") ([] ++ [task_A]).
Proof.
  intros world task_A task_C.
  apply (enqueue_failure_ends_dispatch world "scan_repository" "repositories"
           [] [task_C] task_A Scenario.broker_down).
  - reflexivity.
  - reflexivity.
Defined.

(** C5, as stated, fails: with a broker that refuses the message for
    [A], the message for [C] is never attempted. *)
Lemma enqueue_failure_prevents_later_tasks :
  ¬ (∀ (world : World) (task_name queue_name : string)
       (before after : list Repository) (task : Repository) (e : exn),
       celery_send_task world task_name (task_kwargs world task) queue_name
       = Raise e →
       Forall (λ later,
                 scan_message world task_name queue_name later
                 ∈ enqueued (effects (send_tasks_to_celery_queue world
                                        task_name queue_name
                                        (before ++ task :: after))))
              after).
Proof.
  intros Hclaim.
  specialize (Hclaim
    (Scenario.deployment Scenario.client_P1 Scenario.ok_response
       (Raise Scenario.broker_down))
    "scan_repository" "repositories" []
    [Scenario.describe "P1" Scenario.C (PyStr "def") "inst"]
    (Scenario.describe "P1" Scenario.A (PyStr "abc") "inst")
    Scenario.broker_down eq_refl).
  apply Forall_inv in Hclaim. vm_compute in Hclaim.
  apply list_elem_of_singleton in Hclaim. discriminate Hclaim.
Qed.

(** ** Failure of the listing call *)

(** C6. If the listing call fails, [extract_project_information] raises
    that error, and so does the whole run: nothing is enqueued and no
    report is sent. *)
Theorem listing_failure_aborts_run
    (world : World) (project_key vcs_instance_name path : string)
    (instances : gmap string VCSInstance) (instance : VCSInstance)
    (vcs_client : VCSConnector) (e : exn) :
  env_variables world !! VCS_INSTANCES_FILE_PATH world = Some path →
  load_vcs_instances_into_map world path = Ok instances →
  instances !! vcs_instance_name = Some instance →
  create_client_from_vcs_instance world instance = Ok vcs_client →
  get_repos vcs_client project_key = Raise e →
  let run := collect_repositories world project_key vcs_instance_name in
  outcome (extract_project_information world project_key vcs_client
             vcs_instance_name) = Raise e ∧
  outcome run = Raise e ∧
  enqueued (effects run) = [] ∧
  reports (effects run) = [].
Proof.
  intros Hpath Hload Hinstance Hclient Hlisting run.
  assert (extract_project_information world project_key vcs_client
            vcs_instance_name =
          Run (Raise e)
              [listing_record project_key vcs_instance_name;
               Get_repos project_key]) as Hextract.
  { by rewrite extract_project_information_unfold, Hlisting. }
  split; [by rewrite Hextract|].
  assert (run =
          Run (Raise e)
              [Load_vcs_instances path; received_record project_key;
               Create_client vcs_instance_name;
               listing_record project_key vcs_instance_name;
               Get_repos project_key]) as ->; [|done].
  subst run. unfold collect_repositories, getitem.
  rewrite Hpath, mret_bind, Hload, bind_perform_Ok. cbv beta.
  unfold logger_info. rewrite bind_perform_Ok. cbv beta.
  rewrite Hinstance, mret_bind, Hclient, bind_perform_Ok. cbv beta.
  by rewrite bind_unfold, Hextract.
Qed.

Lemma listing_failure_aborts_run_witness :
  let world :=
    Scenario.deployment Scenario.client_P2 Scenario.ok_response (Ok tt) in
  let run := collect_repositories world "P2" "inst" in
  outcome (extract_project_information world "P2" Scenario.client_P2 "inst")
  = Raise (ConnectionError "connection refused") ∧
  outcome run = Raise (ConnectionError "connection refused") ∧
  enqueued (effects run) = [] ∧
  reports (effects run) = [].
Proof.
  intros world.
  apply (listing_failure_aborts_run world "P2" "inst"
           "/etc/vcs_instances.json" {[ "inst" := Scenario.instance ]}
           Scenario.instance Scenario.client_P2
           (ConnectionError "connection refused")).
  - vm_compute; reflexivity.
  - reflexivity.
  - vm_compute; reflexivity.
  - reflexivity.
  - reflexivity.
Defined.

(** ** Failure of the report *)

(** C7. Whatever goes wrong with the delivery of the report, be it a
    [RequestException] raised by the request or a response on which
    [raise_for_status] raises, [send_repository_id_to_backend] logs the
    error and returns: its outcome is a value for every response and
    every [RequestException]. *)
Theorem report_delivery_failure_is_swallowed
    (world : World) (simple : list SimpleRepository)
    (vcs_instance_name project_key host port : string) :
  env_variables world !! RESC_API_NO_AUTH_SERVICE_HOST world = Some host →
  env_variables world !! RESC_API_NO_AUTH_SERVICE_PORT world = Some port →
  let url := report_url host port in
  let body := report_body project_key vcs_instance_name simple in
  let answer := requests_post world url body report_headers in
  returns_or_raises is_RequestException answer = true →
  send_repository_id_to_backend world simple vcs_instance_name project_key =
  Run (Ok tt)
      [Post url body report_headers;
       match delivery_error answer with
       | Some e => failure_record project_key e
       | None => success_record project_key
       end].
Proof.
  intros Hhost Hport url body answer Hanswer.
  rewrite (send_repository_id_to_backend_unfold world host port Hhost Hport).
  cbv zeta. fold url body answer. unfold delivery_error.
  destruct answer as [response|e].
  - by destruct (status_error response).
  - simpl in Hanswer. by rewrite Hanswer.
Qed.

Lemma report_delivery_failure_is_swallowed_witness :
  let world :=
    Scenario.deployment Scenario.client_P1 Scenario.unavailable_response
      (Ok tt) in
  send_repository_id_to_backend world [] "inst" "P1" =
  Run (Ok tt)
      [Post (report_url "backend" "8000") (report_body "P1" "inst" [])
         report_headers;
       Log INFO ("Error updating repository in project P1: "
                 +:+ "503 Server Error: Service Unavailable for url: "
                 +:+ "http://backend:8000/resc/v1/repositories/active")].
Proof.
  intros world.
  apply (report_delivery_failure_is_swallowed world [] "inst" "P1"
           "backend" "8000").
  - vm_compute; reflexivity.
  - vm_compute; reflexivity.
  - reflexivity.
Defined.

(** A refused connection is swallowed in the same way, and the run of
    scenario [P1] still dispatches its two tasks. *)
Example scenario_P1_backend_unreachable :
  let run :=
    collect_repositories
      (Scenario.deployment Scenario.client_P1
         (Raise (ConnectionError "connection refused")) (Ok tt))
      "P1" "inst" in
  outcome run = Ok tt ∧
  length (enqueued (effects run)) = 2 ∧
  Log INFO "Error updating repository in project P1: connection refused"
  ∈ effects run.
Proof. vm_compute. repeat split. set_solver. Qed.

(** ** The call of [export_repository] *)

(** C9. When the loop reaches a listed repository and its commit fetch
    succeeds, [export_repository] is called on it with the fetched
    commit, present or absent. A connector whose [export_repository]
    raises on an absent commit therefore ends the run, unless what it
    raises is an [HTTPError]; and when it returns, the descriptor is
    dropped if the commit is absent. *)
Theorem export_repository_called_for_every_fetched_commit
    (world : World) (project_key : string) (vcs_client : VCSConnector)
    (vcs_instance_name : string) (before after : list dict)
    (repository : dict) (name commit : pyval) :
  get_repos vcs_client project_key = Ok (before ++ repository :: after) →
  forallb (contained project_key vcs_client vcs_instance_name) before = true →
  repository !! "name" = Some name →
  get_latest_commit vcs_client project_key name = Ok commit →
  let run :=
    extract_project_information world project_key vcs_client
      vcs_instance_name in
  Export_repository repository commit vcs_instance_name ∈ effects run ∧
  (∀ e,
     export_repository vcs_client repository commit vcs_instance_name
     = Raise e →
     is_HTTPError e = false → outcome run = Raise e) ∧
  (∀ task project_tasks,
     export_repository vcs_client repository commit vcs_instance_name
     = Ok task →
     truthy commit = false →
     outcome (process_repository project_key vcs_client vcs_instance_name
                repository project_tasks) = Ok project_tasks).
Proof.
  intros Hlisted Hbefore Hname Hcommit run.
  pose proof (process_repository_unfold project_key vcs_client
                vcs_instance_name repository) as Hstep.
  rewrite Hname, Hcommit in Hstep. cbv zeta in Hstep.
  pose proof (for_each_app
                (process_repository project_key vcs_client vcs_instance_name)
                before (repository :: after) []) as Hloop.
  rewrite bind_unfold, (loop_contained _ _ _ _ _ Hbefore) in Hloop.
  rewrite for_each_cons, bind_unfold in Hloop. cbn [outcome effects] in Hloop.
  set (project_tasks :=
         [] ++ omap (task_of project_key vcs_client vcs_instance_name) before)
    in Hloop.
  specialize (Hstep project_tasks) as Hhere.
  split; [|split].
  - destruct (extraction_effects_loop world project_key vcs_client
                vcs_instance_name _ Hlisted) as [rest Hrun].
    subst run. rewrite Hrun, Hloop.
    assert (Export_repository repository commit vcs_instance_name
            ∈ effects (process_repository project_key vcs_client
                         vcs_instance_name repository project_tasks))
      as Hin.
    { rewrite Hhere.
      destruct (export_repository _ _ _ _) as [task|e].
      - destruct (truthy commit); set_solver.
      - destruct (is_HTTPError e); set_solver. }
    destruct (outcome (process_repository _ _ _ repository project_tasks));
      cbn [effects]; set_solver.
  - intros e Hexport Hhttp. rewrite Hexport, Hhttp in Hhere.
    subst run.
    rewrite (extraction_loop_raises world project_key vcs_client
               vcs_instance_name _ e Hlisted); [done|].
    by rewrite Hloop, Hhere.
  - intros task tasks Hexport Habsent.
    by rewrite Hstep, Hexport, Habsent.
Qed.

Lemma export_repository_called_for_every_fetched_commit_witness :
  let world :=
    Scenario.deployment Scenario.client_P1 Scenario.ok_response (Ok tt) in
  let run := extract_project_information world "P1" Scenario.client_P1 "inst" in
  Export_repository Scenario.B PyNone "inst" ∈ effects run ∧
  (∀ e,
     export_repository Scenario.client_P1 Scenario.B PyNone "inst" = Raise e →
     is_HTTPError e = false → outcome run = Raise e) ∧
  (∀ task project_tasks,
     export_repository Scenario.client_P1 Scenario.B PyNone "inst" = Ok task →
     truthy PyNone = false →
     outcome (process_repository "P1" Scenario.client_P1 "inst"
                Scenario.B project_tasks) = Ok project_tasks).
Proof.
  intros world.
  apply (export_repository_called_for_every_fetched_commit world "P1"
           Scenario.client_P1 "inst" [Scenario.A] [Scenario.C] Scenario.B
           (PyStr "B") PyNone).
  - reflexivity.
  - vm_compute; reflexivity.
  - vm_compute; reflexivity.
  - reflexivity.
Defined.

(** A connector whose [export_repository] cannot deal with an absent
    commit ends the run of scenario [P1] at [B]. *)
Example intolerant_export_ends_run :
  let client :=
    {| get_repos := get_repos Scenario.client_P1;
       get_latest_commit := get_latest_commit Scenario.client_P1;
       export_repository := λ repository commit vcs_instance_name,
         if truthy commit
         then export_repository Scenario.client_P1 repository commit
                vcs_instance_name
         else Raise (Exception "latest_commit: none is not an allowed value")
    |} in
  let run :=
    extract_project_information
      (Scenario.deployment client Scenario.ok_response (Ok tt))
      "P1" client "inst" in
  outcome run
  = Raise (Exception "latest_commit: none is not an allowed value") ∧
  reports (effects run) = [].
Proof. vm_compute. done. Qed.

(** ** The entries of the report *)

Lemma digit_of_pretty_N_char (d : N) :
  (d < 10)%N → digit_of (pretty_N_char d) = Some d.
Proof.
  intros Hd.
  assert (d = 0 ∨ d = 1 ∨ d = 2 ∨ d = 3 ∨ d = 4 ∨ d = 5 ∨ d = 6 ∨ d = 7
          ∨ d = 8 ∨ d = 9)%N as Hcases by lia.
  repeat (destruct Hcases as [->|Hcases]; [reflexivity|]).
  by subst.
Qed.

(** Reading the digits that [pretty] puts in front of [s]. *)
Lemma decimal_go_pretty_N_go (x : N) (s : string) :
  decimal_go 0 (pretty_N_go x s) = decimal_go x s.
Proof.
  revert s. induction (N.lt_wf_0 x) as [x _ IH]. intros s.
  destruct (decide (x = 0)%N) as [->|Hx].
  - by rewrite pretty_N_go_0.
  - rewrite pretty_N_go_step by lia.
    rewrite IH by (apply N.div_lt; lia).
    cbn [decimal_go].
    rewrite digit_of_pretty_N_char by (apply N.mod_lt; lia).
    cbn [mbind option_bind]. f_equal.
    pose proof (N.div_mod x 10). lia.
Qed.

(** A natural number reads back from its numeral. *)
Lemma decimal_pretty_N (x : N) : decimal (pretty x) = Some x.
Proof.
  unfold pretty, pretty_N. destruct (decide (x = 0)%N) as [->|Hx]; [done|].
  pose proof (decimal_go_pretty_N_go x "") as Hgo. cbn [decimal_go] in Hgo.
  unfold decimal. destruct (pretty_N_go x "") as [|c s]; [|done].
  cbn [decimal_go] in Hgo. congruence.
Qed.

(** So does an integer: the numeral that [str] gives for it denotes
    it. *)
Lemma decimal_Z_pretty (z : Z) : decimal_Z (pretty z) = Some z.
Proof.
  assert (∀ p : positive,
            decimal_Z (pretty (Npos p)) = Some (Zpos p)) as Hpos.
  { intros p. pose proof (decimal_pretty_N (Npos p)) as Hp.
    unfold decimal_Z. destruct (pretty (Npos p)) as [|c s] eqn:Hs; [done|].
    destruct (Ascii.eqb c "-") eqn:Hc.
    - apply Ascii.eqb_eq in Hc as ->. by cbn in Hp.
    - by rewrite Hp. }
  destruct z as [|p|p]; [done|apply Hpos|].
  change (pretty (Zneg p)) with (String "-" (pretty (Npos p))).
  unfold decimal_Z. change (Ascii.eqb "-" "-") with true. cbv iota.
  by rewrite decimal_pretty_N.
Qed.

Lemma string_conversion_py_str (v : pyval) : string_conversion v (py_str v).
Proof. by destruct v as [|[]| | |]. Qed.

Lemma entry_of_reported_as (repository : dict) (entry : SimpleRepository) :
  entry_of repository entry → reported_as repository entry.
Proof.
  intros (repo_id & repo_name & Hid & Hname & Hentry_id & Hentry_name).
  exists repo_id. rewrite Hentry_id, Hentry_name.
  repeat split; [done|apply string_conversion_py_str| |done].
  intros z ->. apply decimal_Z_pretty.
Qed.

(** C10. The payload of the report holds one entry per listed record, in
    listing order, and these are the entries that
    [extract_repository_id_and_name] returns. The id of an entry is the
    string conversion of the record's id field whatever its type (a
    string as it is, an integer as the decimal numeral that reads back as
    that integer, [None] and booleans by name, another object by its own
    [str]), and the name of an entry is the record's name field
    itself. *)
Theorem report_entries_convert_id_and_keep_name
    (world : World) (project_key : string) (vcs_client : VCSConnector)
    (vcs_instance_name : string) (listing : list dict) (host port : string) :
  get_repos vcs_client project_key = Ok listing →
  forallb (contained project_key vcs_client vcs_instance_name) listing = true →
  forallb well_formed listing = true →
  env_variables world !! RESC_API_NO_AUTH_SERVICE_HOST world = Some host →
  env_variables world !! RESC_API_NO_AUTH_SERVICE_PORT world = Some port →
  ∃ body,
    reports (effects (extract_project_information world project_key
                        vcs_client vcs_instance_name)) = [body] ∧
    extract_repository_id_and_name listing = Run (Ok (repositories body)) [] ∧
    Forall2 reported_as listing (repositories body).
Proof.
  intros Hlisted Hloop Hfields Hhost Hport.
  destruct (well_formed_simple_of listing Hfields) as (simple & Hsimple & Hall).
  exists (report_body project_key vcs_instance_name simple).
  split; [|split].
  - by apply (extraction_reports world project_key vcs_client
                vcs_instance_name listing simple host port).
  - by apply extract_repository_id_and_name_Ok.
  - cbn [repositories report_body].
    eapply Forall2_impl; [exact Hall|]. apply entry_of_reported_as.
Qed.

Lemma report_entries_convert_id_and_keep_name_witness :
  let client :=
    Scenario.connector "P8" (Ok Scenario.odd_ids) (λ _, Ok PyNone) in
  let world := Scenario.deployment client Scenario.ok_response (Ok tt) in
  ∃ body,
    reports (effects (extract_project_information world "P8" client "inst"))
    = [body] ∧
    extract_repository_id_and_name Scenario.odd_ids
    = Run (Ok (repositories body)) [] ∧
    Forall2 reported_as Scenario.odd_ids (repositories body).
Proof.
  intros client world.
  apply (report_entries_convert_id_and_keep_name world "P8" client "inst"
           Scenario.odd_ids "backend" "8000").
  - reflexivity.
  - vm_compute; reflexivity.
  - vm_compute; reflexivity.
  - vm_compute; reflexivity.
  - vm_compute; reflexivity.
Defined.

(** The ids of that payload. *)
Example ids_of_other_types :
  map simple_id
    (default []
       (mapM simple_of Scenario.odd_ids)) =
  ["-12"; "True"; "None"; "1.5"].
Proof. vm_compute. reflexivity. Qed.

(** An integer id becomes its decimal string, a string id stays, and the
    names are untouched. *)
Example entries_of_P1 :
  extract_repository_id_and_name [Scenario.A; Scenario.B; Scenario.C] =
  Run (Ok [{| simple_id := "1"; simple_name := PyStr "A" |};
           {| simple_id := "2"; simple_name := PyStr "B" |};
           {| simple_id := "c-3"; simple_name := PyStr "C" |}]) [].
Proof. vm_compute. reflexivity. Qed.

(** * Further properties of the collector *)

(** ** When an iteration, the loop and the report raise *)

Section Raises.

Variables (world : World) (project_key : string) (vcs_client : VCSConnector)
          (vcs_instance_name : string).

Abbreviation process :=
  (process_repository project_key vcs_client vcs_instance_name).
Abbreviation contained' :=
  (contained project_key vcs_client vcs_instance_name).

Lemma process_not_contained (repository : dict)
    (project_tasks : list Repository) :
  contained' repository = false →
  ∃ e, outcome (process repository project_tasks) = Raise e.
Proof.
  rewrite process_repository_unfold. unfold contained.
  destruct (repository !! "name") as [name|]; [|by eexists].
  destruct (get_latest_commit _ _ _) as [commit|e].
  - destruct (export_repository _ _ _ _) as [task|e]; [done|].
    simpl. intros ->. by eexists.
  - intros ->. by eexists.
Qed.

(** A loop that returns went through contained iterations only. *)
Lemma loop_returns_contained (listing : list dict)
    (project_tasks tasks : list Repository) :
  outcome (for_each process listing project_tasks) = Ok tasks →
  forallb contained' listing = true.
Proof.
  revert project_tasks.
  induction listing as [|repository listing IH]; intros project_tasks; [done|].
  rewrite for_each_cons, bind_unfold. cbn [forallb].
  destruct (contained' repository) eqn:Hr.
  - rewrite (process_contained _ _ _ _ _ Hr). cbn [outcome andb]. apply IH.
  - destruct (process_not_contained repository project_tasks Hr) as [e ->].
    done.
Qed.

Lemma extract_repository_id_and_name_cons (repository : dict)
    (listing : list dict) :
  extract_repository_id_and_name (repository :: listing) =
  match repository !! "id", repository !! "name" with
  | None, _ => Run (Raise (KeyError "id")) []
  | Some _, None => Run (Raise (KeyError "name")) []
  | Some repo_id, Some repo_name =>
      simple ← extract_repository_id_and_name listing;
      mret ({| simple_id := py_str repo_id; simple_name := repo_name |}
              :: simple)
  end.
Proof.
  unfold extract_repository_id_and_name at 1. cbn [comprehension].
  fold (extract_repository_id_and_name listing). unfold getitem.
  destruct (repository !! "id") as [repo_id|]; [|done].
  destruct (repository !! "name") as [repo_name|]; [|done].
  by rewrite !mret_bind.
Qed.

(** The first record without an id or a name ends the comprehension of
    [extract_repository_id_and_name]. *)
Lemma extract_repository_id_and_name_Raise (listing : list dict) :
  mapM simple_of listing = None →
  ∃ key, extract_repository_id_and_name listing = Run (Raise (KeyError key)) []
         ∧ (key = "id" ∨ key = "name").
Proof.
  induction listing as [|repository listing IH]; [done|].
  intros Hnone. rewrite extract_repository_id_and_name_cons.
  destruct (repository !! "id") as [repo_id|] eqn:Hid;
    [|exists "id"; by auto].
  destruct (repository !! "name") as [repo_name|] eqn:Hname;
    [|exists "name"; by auto].
  destruct (mapM simple_of listing) as [simple|] eqn:Hsimple.
  - exfalso.
    assert (mapM simple_of (repository :: listing) =
            Some ({| simple_id := py_str repo_id; simple_name := repo_name |}
                    :: simple)) as Hsome; [|congruence].
    apply mapM_Some. constructor; [|by apply mapM_Some].
    unfold simple_of. by rewrite Hid, Hname.
  - destruct (IH eq_refl) as (key & -> & Hkey). by exists key.
Qed.

(** Every path through [send_repository_id_to_backend]. *)
Lemma send_repository_id_to_backend_cases (simple : list SimpleRepository) :
  send_repository_id_to_backend world simple vcs_instance_name project_key =
  match env_variables world !! RESC_API_NO_AUTH_SERVICE_HOST world,
        env_variables world !! RESC_API_NO_AUTH_SERVICE_PORT world with
  | None, _ => Run (Raise (KeyError (RESC_API_NO_AUTH_SERVICE_HOST world))) []
  | Some _, None =>
      Run (Raise (KeyError (RESC_API_NO_AUTH_SERVICE_PORT world))) []
  | Some host, Some port =>
      let url := report_url host port in
      let body := report_body project_key vcs_instance_name simple in
      let post := Post url body report_headers in
      match requests_post world url body report_headers with
      | Raise e =>
          if is_RequestException e
          then Run (Ok tt) [post; failure_record project_key e]
          else Run (Raise e) [post]
      | Ok response =>
          match status_error response with
          | Some e => Run (Ok tt) [post; failure_record project_key e]
          | None => Run (Ok tt) [post; success_record project_key]
          end
      end
  end.
Proof.
  destruct (env_variables world !! RESC_API_NO_AUTH_SERVICE_HOST world)
    as [host|] eqn:Hhost.
  - destruct (env_variables world !! RESC_API_NO_AUTH_SERVICE_PORT world)
      as [port|] eqn:Hport.
    + by apply send_repository_id_to_backend_unfold.
    + unfold send_repository_id_to_backend, getitem.
      by rewrite Hhost, Hport, mret_bind.
  - unfold send_repository_id_to_backend, getitem. by rewrite Hhost.
Qed.

(** The report enqueues nothing. *)
Lemma send_repository_id_to_backend_no_message
    (simple : list SimpleRepository) :
  enqueued (effects (send_repository_id_to_backend world simple
                       vcs_instance_name project_key)) = [].
Proof.
  rewrite send_repository_id_to_backend_cases.
  destruct (env_variables world !! _) as [host|]; [|done].
  destruct (env_variables world !! _) as [port|]; [|done].
  cbv zeta. destruct (requests_post _ _ _ _) as [response|e].
  - by destruct (status_error response).
  - by destruct (is_RequestException e).
Qed.

(** Nor does the extraction. *)
Lemma extraction_no_message :
  enqueued (effects (extract_project_information world project_key
                       vcs_client vcs_instance_name)) = [].
Proof.
  rewrite extract_project_information_unfold.
  destruct (get_repos vcs_client project_key) as [listing|e]; [|done].
  cbv zeta.
  pose proof (loop_quiet project_key vcs_client vcs_instance_name listing [])
    as [_ Hloop].
  destruct (outcome (for_each _ listing [])) as [project_tasks|e].
  - destruct (outcome (extract_repository_id_and_name listing)) as [simple|e];
      cbn [effects]; rewrite !enqueued_app, ?Hloop;
      by rewrite ?send_repository_id_to_backend_no_message.
  - cbn [effects]. by rewrite enqueued_app, Hloop.
Qed.

(** A report that returns had its address and an answer that is a value
    or a [RequestException]. *)
Lemma report_returns_contained (listing : list dict)
    (simple : list SimpleRepository) :
  mapM simple_of listing = Some simple →
  (∃ u, outcome (send_repository_id_to_backend world simple
                   vcs_instance_name project_key) = Ok u) →
  report_contained world project_key vcs_instance_name listing = true.
Proof.
  intros Hsimple [u Hu]. unfold report_contained. rewrite Hsimple.
  rewrite send_repository_id_to_backend_cases in Hu.
  destruct (env_variables world !! RESC_API_NO_AUTH_SERVICE_HOST world)
    as [host|]; [|done].
  destruct (env_variables world !! RESC_API_NO_AUTH_SERVICE_PORT world)
    as [port|]; [|done].
  cbv zeta in Hu. destruct (requests_post _ _ _ _) as [response|e]; [done|].
  simpl. by destruct (is_RequestException e).
Qed.

End Raises.

(** ** When the extraction returns *)

(** X1. [extract_project_information] returns a task list exactly when
    the listing call returns, every iteration of the loop is contained
    and the report is contained; any other run raises. *)
Theorem extraction_returns_iff
    (world : World) (project_key : string) (vcs_client : VCSConnector)
    (vcs_instance_name : string) :
  (∃ project_tasks,
     outcome (extract_project_information world project_key vcs_client
                vcs_instance_name) = Ok project_tasks) ↔
  (∃ listing,
     get_repos vcs_client project_key = Ok listing ∧
     forallb (contained project_key vcs_client vcs_instance_name) listing
     = true ∧
     report_contained world project_key vcs_instance_name listing = true).
Proof.
  split.
  - intros [project_tasks Hrun].
    rewrite extract_project_information_unfold in Hrun.
    destruct (get_repos vcs_client project_key) as [listing|e]; [|done].
    exists listing. cbv zeta in Hrun.
    destruct (outcome (for_each _ listing [])) as [tasks|e] eqn:Hloop; [|done].
    apply loop_returns_contained in Hloop.
    destruct (mapM simple_of listing) as [simple|] eqn:Hsimple.
    + rewrite (extract_repository_id_and_name_Ok _ _ Hsimple) in Hrun.
      cbn [outcome] in Hrun. repeat split; [done|].
      apply (report_returns_contained _ _ _ _ simple Hsimple).
      destruct (outcome (send_repository_id_to_backend _ _ _ _)) as [u|e];
        [by exists u|done].
    + destruct (extract_repository_id_and_name_Raise _ Hsimple)
        as (key & Hkey & _).
      by rewrite Hkey in Hrun.
  - intros (listing & Hlisted & Hloop & Hreport).
    apply report_contained_inv in Hreport
      as (simple & host & port & Hsimple & Hhost & Hport & Hpost).
    eexists.
    by apply (extract_project_information_outcome world project_key
                vcs_client vcs_instance_name listing simple host port).
Qed.

(** ** Records that lack a field *)

(** X2. A listed record without a name ends the run at its iteration with
    [KeyError('name')]: the subscript of line 51 is inside the [try] but
    is no [HTTPError]. Nothing is logged or fetched for that record, the
    records after it are not processed, and no report is sent. *)
Theorem record_without_name_aborts_extraction
    (world : World) (project_key : string) (vcs_client : VCSConnector)
    (vcs_instance_name : string) (before after : list dict)
    (repository : dict) :
  get_repos vcs_client project_key = Ok (before ++ repository :: after) →
  forallb (contained project_key vcs_client vcs_instance_name) before = true →
  repository !! "name" = None →
  extract_project_information world project_key vcs_client vcs_instance_name =
  Run (Raise (KeyError "name"))
      (prologue project_key vcs_instance_name (before ++ repository :: after)
         ++ effects (for_each
                       (process_repository project_key vcs_client
                          vcs_instance_name) before [])).
Proof.
  intros Hlisted Hbefore Hname.
  pose proof (for_each_app
                (process_repository project_key vcs_client vcs_instance_name)
                before (repository :: after) []) as Hloop.
  rewrite bind_unfold, (loop_contained _ _ _ _ _ Hbefore) in Hloop.
  rewrite for_each_cons, process_repository_unfold, Hname in Hloop.
  rewrite bind_unfold in Hloop. cbn [outcome effects] in Hloop.
  rewrite app_nil_r in Hloop.
  rewrite (extraction_loop_raises world project_key vcs_client
             vcs_instance_name _ (KeyError "name") Hlisted);
    by rewrite Hloop.
Qed.

Lemma record_without_name_aborts_extraction_witness :
  let client := Scenario.client_P4 Scenario.nameless in
  extract_project_information
    (Scenario.deployment client Scenario.ok_response (Ok tt))
    "P4" client "inst" =
  Run (Raise (KeyError "name"))
      (prologue "P4" "inst" ([Scenario.A] ++ Scenario.nameless :: [Scenario.C])
         ++ effects (for_each (process_repository "P4" client "inst")
                       [Scenario.A] [])).
Proof.
  intros client.
  apply (record_without_name_aborts_extraction
           (Scenario.deployment client Scenario.ok_response (Ok tt))
           "P4" client "inst" [Scenario.A] [Scenario.C] Scenario.nameless).
  - reflexivity.
  - vm_compute; reflexivity.
  - vm_compute; reflexivity.
Defined.

(** X3. A listed record without an id lets the loop run to its end, with
    every fetch and export made, and then ends the run with
    [KeyError('id')] while the payload is built: the collected task list
    is not returned and no request goes to the backend. *)
Theorem record_without_id_aborts_after_loop
    (world : World) (project_key : string) (vcs_client : VCSConnector)
    (vcs_instance_name : string) (before after : list dict)
    (repository : dict) :
  get_repos vcs_client project_key = Ok (before ++ repository :: after) →
  forallb (contained project_key vcs_client vcs_instance_name)
    (before ++ repository :: after) = true →
  repository !! "id" = None →
  extract_project_information world project_key vcs_client vcs_instance_name =
  Run (Raise (KeyError "id"))
      (prologue project_key vcs_instance_name (before ++ repository :: after)
         ++ effects (for_each
                       (process_repository project_key vcs_client
                          vcs_instance_name)
                       (before ++ repository :: after) [])).
Proof.
  intros Hlisted Hloop Hid.
  rewrite extract_project_information_unfold, Hlisted. cbv zeta.
  rewrite (loop_contained _ _ _ _ _ Hloop).
  assert (extract_repository_id_and_name (before ++ repository :: after) =
          Run (Raise (KeyError "id")) []) as ->; [|done].
  clear Hlisted. induction before as [|first before IH].
  - by rewrite app_nil_l, extract_repository_id_and_name_cons, Hid.
  - rewrite <- app_comm_cons in Hloop. cbn [forallb] in Hloop.
    apply andb_prop in Hloop as [Hfirst Hloop].
    rewrite <- app_comm_cons, extract_repository_id_and_name_cons.
    unfold contained in Hfirst.
    destruct (first !! "id"); [|done]. destruct (first !! "name"); [|done].
    by rewrite (IH Hloop).
Qed.

Lemma record_without_id_aborts_after_loop_witness :
  let client := Scenario.client_P4 Scenario.idless in
  extract_project_information
    (Scenario.deployment client Scenario.ok_response (Ok tt))
    "P4" client "inst" =
  Run (Raise (KeyError "id"))
      (prologue "P4" "inst" ([Scenario.A] ++ Scenario.idless :: [Scenario.C])
         ++ effects (for_each (process_repository "P4" client "inst")
                       ([Scenario.A] ++ Scenario.idless :: [Scenario.C]) [])).
Proof.
  intros client.
  apply (record_without_id_aborts_after_loop
           (Scenario.deployment client Scenario.ok_response (Ok tt))
           "P4" client "inst" [Scenario.A] [Scenario.C] Scenario.idless).
  - reflexivity.
  - vm_compute; reflexivity.
  - vm_compute; reflexivity.
Defined.

(** The run of that scenario fetched the commits of all three records and
    then sent neither a report nor a message. *)
Example scenario_P4_without_id :
  let run :=
    collect_repositories
      (Scenario.deployment (Scenario.client_P4 Scenario.idless)
         Scenario.ok_response (Ok tt)) "P4" "inst" in
  outcome run = Raise (KeyError "id") ∧
  fetches (effects run) =
  [("P4", PyStr "A"); ("P4", PyStr "G"); ("P4", PyStr "C")] ∧
  reports (effects run) = [] ∧
  enqueued (effects run) = [].
Proof. vm_compute. done. Qed.

(** ** An empty project *)

(** X4. When the listing is empty the loop does nothing, and the run
    still reports: it makes exactly one request, which carries an empty
    list of repositories, logs its result, and returns an empty task
    list. *)
Theorem empty_listing_reports_empty_set
    (world : World) (project_key : string) (vcs_client : VCSConnector)
    (vcs_instance_name host port : string) :
  get_repos vcs_client project_key = Ok [] →
  env_variables world !! RESC_API_NO_AUTH_SERVICE_HOST world = Some host →
  env_variables world !! RESC_API_NO_AUTH_SERVICE_PORT world = Some port →
  let body := report_body project_key vcs_instance_name [] in
  let answer :=
    requests_post world (report_url host port) body report_headers in
  returns_or_raises is_RequestException answer = true →
  let run :=
    extract_project_information world project_key vcs_client
      vcs_instance_name in
  run =
  Run (Ok [])
      (prologue project_key vcs_instance_name []
         ++ [Post (report_url host port) body report_headers;
             match delivery_error answer with
             | Some e => failure_record project_key e
             | None => success_record project_key
             end]) ∧
  reports (effects run) = [body].
Proof.
  intros Hlisted Hhost Hport body answer Hanswer run.
  assert (run =
          Run (Ok [])
              (prologue project_key vcs_instance_name []
                 ++ [Post (report_url host port) body report_headers;
                     match delivery_error answer with
                     | Some e => failure_record project_key e
                     | None => success_record project_key
                     end])) as Hrun.
  2:{ split; [done|]. rewrite Hrun. cbn [effects]. rewrite reports_app.
      by destruct (delivery_error answer). }
  subst run. rewrite extract_project_information_unfold, Hlisted. cbv zeta.
  cbn [for_each outcome effects mret M_ret extract_repository_id_and_name
       comprehension].
  rewrite (send_repository_id_to_backend_unfold world host port Hhost Hport).
  cbv zeta. fold body answer. unfold delivery_error. revert Hanswer.
  destruct answer as [response|e].
  - intros _. by destruct (status_error response).
  - simpl. by intros ->.
Qed.

Lemma empty_listing_reports_empty_set_witness :
  let world :=
    Scenario.deployment Scenario.client_P5 Scenario.ok_response (Ok tt) in
  let body := report_body "P5" "inst" [] in
  let run := extract_project_information world "P5" Scenario.client_P5 "inst" in
  run =
  Run (Ok [])
      (prologue "P5" "inst" []
         ++ [Post (report_url "backend" "8000") body report_headers;
             success_record "P5"]) ∧
  reports (effects run) = [body].
Proof.
  intros world body.
  apply (empty_listing_reports_empty_set world "P5" Scenario.client_P5 "inst"
           "backend" "8000").
  - reflexivity.
  - vm_compute; reflexivity.
  - vm_compute; reflexivity.
  - reflexivity.
Defined.

(** ** A failing [export_repository] *)

(** X5. An [HTTPError] raised by [export_repository] is caught by the
    same handler as a failed commit fetch: the iteration logs it under
    the message about the latest commit, appends nothing and returns, so
    the loop goes on. This also holds when the fetched commit is present:
    such a repository is left out of the task list. *)
Theorem export_http_error_skips_repository
    (project_key : string) (vcs_client : VCSConnector)
    (vcs_instance_name : string) (repository : dict) (name commit : pyval)
    (e : exn) (project_tasks : list Repository) :
  repository !! "name" = Some name →
  get_latest_commit vcs_client project_key name = Ok commit →
  export_repository vcs_client repository commit vcs_instance_name = Raise e →
  is_HTTPError e = true →
  process_repository project_key vcs_client vcs_instance_name repository
    project_tasks =
  Run (Ok project_tasks)
      [fetching_record project_key name;
       Get_latest_commit project_key name;
       Export_repository repository commit vcs_instance_name;
       error_record project_key name e].
Proof.
  intros Hname Hcommit Hexport Hhttp.
  by rewrite process_repository_unfold, Hname, Hcommit, Hexport, Hhttp.
Qed.

Lemma export_http_error_skips_repository_witness :
  truthy (PyStr "abc") = true ∧
  process_repository "P6" Scenario.client_P6 "inst" Scenario.A [] =
  Run (Ok [])
      [fetching_record "P6" (PyStr "A");
       Get_latest_commit "P6" (PyStr "A");
       Export_repository Scenario.A (PyStr "abc") "inst";
       error_record "P6" (PyStr "A") Scenario.forbidden].
Proof.
  split; [reflexivity|].
  apply (export_http_error_skips_repository "P6" Scenario.client_P6 "inst"
           Scenario.A (PyStr "A") (PyStr "abc") Scenario.forbidden []).
  - vm_compute; reflexivity.
  - reflexivity.
  - vm_compute; reflexivity.
  - reflexivity.
Defined.

(** The run of that scenario dispatches [C] only and reports both. *)
Example scenario_P6_export_forbidden :
  let run :=
    collect_repositories
      (Scenario.deployment Scenario.client_P6 Scenario.ok_response (Ok tt))
      "P6" "inst" in
  outcome run = Ok tt ∧
  enqueued (effects run) =
  [("scan_repository", [("repository", "inst:P6/c-3@def")], "repositories")] ∧
  map repositories (reports (effects run)) =
  [[{| simple_id := "1"; simple_name := PyStr "A" |};
    {| simple_id := "c-3"; simple_name := PyStr "C" |}]].
Proof. vm_compute. done. Qed.

(** ** Size of the task list *)

Lemma omap_length_le {A B} (f : A → option B) (xs : list A) :
  (length (omap f xs) ≤ length xs)%nat.
Proof.
  induction xs as [|x xs IH]; [done|].
  cbn [omap list_omap]. destruct (f x); simpl; fold (omap f xs); lia.
Qed.

(** X6. The extraction never returns more tasks than the listing has
    repositories: each iteration appends at most one descriptor. *)
Theorem no_more_tasks_than_repositories
    (world : World) (project_key : string) (vcs_client : VCSConnector)
    (vcs_instance_name : string) (listing : list dict)
    (project_tasks : list Repository) :
  get_repos vcs_client project_key = Ok listing →
  outcome (extract_project_information world project_key vcs_client
             vcs_instance_name) = Ok project_tasks →
  (length project_tasks ≤ length listing)%nat.
Proof.
  intros Hlisted Hrun.
  rewrite extract_project_information_unfold, Hlisted in Hrun.
  cbv zeta in Hrun.
  destruct (outcome (for_each _ listing [])) as [tasks|e] eqn:Hloop; [|done].
  pose proof (loop_returns_contained _ _ _ _ _ _ Hloop) as Hcontained.
  rewrite (loop_contained _ _ _ _ _ Hcontained) in Hloop.
  injection Hloop as <-.
  destruct (outcome (extract_repository_id_and_name listing)); [|done].
  cbn [outcome] in Hrun.
  destruct (outcome (send_repository_id_to_backend _ _ _ _)); [|done].
  injection Hrun as <-. apply omap_length_le.
Qed.

Lemma no_more_tasks_than_repositories_witness :
  (length [Scenario.describe "P1" Scenario.A (PyStr "abc") "inst";
           Scenario.describe "P1" Scenario.C (PyStr "def") "inst"]
   ≤ length [Scenario.A; Scenario.B; Scenario.C])%nat.
Proof.
  apply (no_more_tasks_than_repositories
           (Scenario.deployment Scenario.client_P1 Scenario.ok_response (Ok tt))
           "P1" Scenario.client_P1 "inst").
  - reflexivity.
  - vm_compute; reflexivity.
Defined.

(** ** The messages of a dispatch *)

Lemma enqueued_cons_send (task_name : string)
    (kwargs : list (string * string)) (queue : string) (trace : list event) :
  enqueued (Send_task task_name kwargs queue :: trace) =
  (task_name, kwargs, queue) :: enqueued trace.
Proof. reflexivity. Qed.

(** X7. Whatever the broker answers, the messages that
    [send_tasks_to_celery_queue] hands to the queue are an initial part
    of the messages of its task list, in order; and when the dispatch
    returns, they are all of them. *)
Theorem dispatched_messages_are_a_prefix
    (world : World) (task_name queue_name : string)
    (project_tasks : list Repository) :
  let run :=
    send_tasks_to_celery_queue world task_name queue_name project_tasks in
  enqueued (effects run)
    `prefix_of` map (scan_message world task_name queue_name) project_tasks ∧
  (outcome run = Ok tt →
   enqueued (effects run) =
   map (scan_message world task_name queue_name) project_tasks).
Proof.
  cbv zeta. induction project_tasks as [|task project_tasks [IHp IHo]].
  - by split.
  - rewrite send_tasks_to_celery_queue_cons.
    change (map (scan_message world task_name queue_name)
              (task :: project_tasks))
      with ((task_name, task_kwargs world task, queue_name)
              :: map (scan_message world task_name queue_name) project_tasks).
    destruct (celery_send_task _ _ _ _) as [[]|e]; cbn [outcome effects];
      rewrite enqueued_cons_send.
    + split; [by apply prefix_cons|].
      intros Hok. by rewrite (IHo Hok).
    + split; [apply prefix_cons, prefix_nil|done].
Qed.

(** X8. Dispatching a concatenation is dispatching its first part and
    then, if that returned, its second part. *)
Theorem dispatch_of_concatenation
    (world : World) (task_name queue_name : string)
    (first second : list Repository) :
  send_tasks_to_celery_queue world task_name queue_name (first ++ second) =
  (send_tasks_to_celery_queue world task_name queue_name first;;
   send_tasks_to_celery_queue world task_name queue_name second).
Proof.
  unfold send_tasks_to_celery_queue. rewrite for_each_app, !bind_unfold.
  by destruct (outcome (for_each _ first ())) as [[]|e].
Qed.

Lemma dispatched_messages_are_a_prefix_witness :
  let world :=
    Scenario.deployment Scenario.client_P1 Scenario.ok_response
      (Raise Scenario.broker_down) in
  let tasks :=
    [Scenario.describe "P1" Scenario.A (PyStr "abc") "inst";
     Scenario.describe "P1" Scenario.C (PyStr "def") "inst"] in
  let run :=
    send_tasks_to_celery_queue world "scan_repository" "repositories" tasks in
  enqueued (effects run)
    `prefix_of` map (scan_message world "scan_repository" "repositories")
                    tasks ∧
  (outcome run = Ok tt →
   enqueued (effects run) =
   map (scan_message world "scan_repository" "repositories") tasks).
Proof.
  intros world tasks.
  apply (dispatched_messages_are_a_prefix world "scan_repository"
           "repositories" tasks).
Defined.

(** ** The collection entry point, path by path *)

Section Entry_point.

Variables (world : World) (project_key vcs_instance_name : string).

Abbreviation pipeline vcs_client :=
  (extract_project_information world project_key vcs_client vcs_instance_name
   ≫= send_tasks_to_celery_queue world (SECRET_SCANNER_TASK_NAME world)
        (REPOSITORY_QUEUE world)).

(** Where [collect_repositories] can end before the extraction. *)
Lemma collect_repositories_cases :
  collect_repositories world project_key vcs_instance_name =
  match env_variables world !! VCS_INSTANCES_FILE_PATH world with
  | None => Run (Raise (KeyError (VCS_INSTANCES_FILE_PATH world))) []
  | Some path =>
      match load_vcs_instances_into_map world path with
      | Raise e => Run (Raise e) [Load_vcs_instances path]
      | Ok instances =>
          let loaded :=
            [Load_vcs_instances path; received_record project_key] in
          match instances !! vcs_instance_name with
          | None => Run (Raise (KeyError vcs_instance_name)) loaded
          | Some instance =>
              let created := loaded ++ [Create_client vcs_instance_name] in
              match create_client_from_vcs_instance world instance with
              | Raise e => Run (Raise e) created
              | Ok vcs_client =>
                  Run (outcome (pipeline vcs_client))
                      (created ++ effects (pipeline vcs_client))
              end
          end
      end
  end.
Proof.
  destruct (env_variables world !! VCS_INSTANCES_FILE_PATH world)
    as [path|] eqn:Hpath.
  2:{ unfold collect_repositories, getitem. by rewrite Hpath. }
  destruct (load_vcs_instances_into_map world path) as [instances|e] eqn:Hload.
  2:{ unfold collect_repositories, getitem.
      by rewrite Hpath, mret_bind, Hload. }
  cbv zeta.
  destruct (instances !! vcs_instance_name) as [instance|] eqn:Hinstance.
  2:{ unfold collect_repositories, getitem.
      rewrite Hpath, mret_bind, Hload, bind_perform_Ok. cbv beta.
      unfold logger_info. rewrite bind_perform_Ok. cbv beta.
      by rewrite Hinstance. }
  destruct (create_client_from_vcs_instance world instance)
    as [vcs_client|e] eqn:Hclient.
  - by apply (collect_repositories_unfold world project_key vcs_instance_name
                path instances instance vcs_client).
  - unfold collect_repositories, getitem.
    rewrite Hpath, mret_bind, Hload, bind_perform_Ok. cbv beta.
    unfold logger_info. rewrite bind_perform_Ok. cbv beta.
    by rewrite Hinstance, mret_bind, Hclient.
Qed.

End Entry_point.

(** X9. A run for an instance name that the loaded map does not hold
    ends with [KeyError] of that name right after the configuration is
    read: no connector is built and nothing is listed, reported or
    enqueued. *)
Theorem unknown_instance_aborts_before_listing
    (world : World) (project_key vcs_instance_name path : string)
    (instances : gmap string VCSInstance) :
  env_variables world !! VCS_INSTANCES_FILE_PATH world = Some path →
  load_vcs_instances_into_map world path = Ok instances →
  instances !! vcs_instance_name = None →
  collect_repositories world project_key vcs_instance_name =
  Run (Raise (KeyError vcs_instance_name))
      [Load_vcs_instances path; received_record project_key].
Proof.
  intros Hpath Hload Hinstance.
  by rewrite collect_repositories_cases, Hpath, Hload, Hinstance.
Qed.

Lemma unknown_instance_aborts_before_listing_witness :
  collect_repositories
    (Scenario.deployment Scenario.client_P1 Scenario.ok_response (Ok tt))
    "P1" "elsewhere" =
  Run (Raise (KeyError "elsewhere"))
      [Load_vcs_instances "/etc/vcs_instances.json"; received_record "P1"].
Proof.
  apply (unknown_instance_aborts_before_listing
           (Scenario.deployment Scenario.client_P1 Scenario.ok_response (Ok tt))
           "P1" "elsewhere" "/etc/vcs_instances.json"
           {[ "inst" := Scenario.instance ]}).
  - vm_compute; reflexivity.
  - reflexivity.
  - vm_compute; reflexivity.
Defined.

(** X10. In every run of [collect_repositories], whatever it ends with,
    the report precedes the dispatch: the trace splits into a first part
    without any message to the queue and a second part without any
    request to the backend. *)
Theorem report_precedes_dispatch
    (world : World) (project_key vcs_instance_name : string) :
  ∃ first second,
    effects (collect_repositories world project_key vcs_instance_name) =
    first ++ second ∧
    enqueued first = [] ∧
    reports second = [].
Proof.
  assert (∀ trace, enqueued trace = [] →
            ∃ first second,
              trace = first ++ second ∧ enqueued first = []
              ∧ reports second = []) as Hearly.
  { intros trace Htrace. exists trace, []. by rewrite app_nil_r. }
  rewrite collect_repositories_cases.
  destruct (env_variables world !! _) as [path|]; [|by apply Hearly].
  destruct (load_vcs_instances_into_map world path) as [instances|e];
    [|by apply Hearly].
  cbv zeta.
  destruct (instances !! vcs_instance_name) as [instance|];
    [|by apply Hearly].
  destruct (create_client_from_vcs_instance world instance)
    as [vcs_client|e]; [|by apply Hearly].
  cbn [effects]. rewrite bind_unfold.
  pose proof (extraction_no_message world project_key vcs_client
                vcs_instance_name) as Hquiet.
  destruct (outcome (extract_project_information _ _ _ _))
    as [project_tasks|e]; cbn [effects].
  - eexists _, _. split; [by rewrite app_assoc|].
    split; [|apply send_tasks_to_celery_queue_quiet].
    by rewrite enqueued_app, Hquiet.
  - apply Hearly. by rewrite enqueued_app, Hquiet.
Qed.

(** X11. A run of [collect_repositories] in which the configuration is
    read, the extraction is contained and the broker accepts returns,
    after sending the one report and then one message per returned
    descriptor, addressed to the scanner task on the repository queue. *)
Theorem completed_run_reports_then_dispatches
    (world : World) (project_key vcs_instance_name path : string)
    (instances : gmap string VCSInstance) (instance : VCSInstance)
    (vcs_client : VCSConnector) (listing : list dict) :
  env_variables world !! VCS_INSTANCES_FILE_PATH world = Some path →
  load_vcs_instances_into_map world path = Ok instances →
  instances !! vcs_instance_name = Some instance →
  create_client_from_vcs_instance world instance = Ok vcs_client →
  get_repos vcs_client project_key = Ok listing →
  forallb (contained project_key vcs_client vcs_instance_name) listing = true →
  report_contained world project_key vcs_instance_name listing = true →
  (∀ task,
     accepted world (SECRET_SCANNER_TASK_NAME world) (REPOSITORY_QUEUE world)
       task = true) →
  let run := collect_repositories world project_key vcs_instance_name in
  outcome run = Ok tt ∧
  enqueued (effects run) =
  map (scan_message world (SECRET_SCANNER_TASK_NAME world)
         (REPOSITORY_QUEUE world))
      (omap (task_of project_key vcs_client vcs_instance_name) listing) ∧
  ∃ simple,
    mapM simple_of listing = Some simple ∧
    reports (effects run) =
    [report_body project_key vcs_instance_name simple].
Proof.
  intros Hpath Hload Hinstance Hclient Hlisted Hloop Hreport Hbroker run.
  apply report_contained_inv in Hreport
    as (simple & host & port & Hsimple & Hhost & Hport & Hpost).
  pose proof (extract_project_information_outcome world project_key vcs_client
                vcs_instance_name listing simple host port Hlisted Hloop
                Hsimple Hhost Hport Hpost) as Hextract.
  pose proof (extraction_no_message world project_key vcs_client
                vcs_instance_name) as Hquiet.
  assert (forallb (accepted world (SECRET_SCANNER_TASK_NAME world)
                     (REPOSITORY_QUEUE world))
            (omap (task_of project_key vcs_client vcs_instance_name) listing)
          = true) as Haccepted.
  { apply forallb_forall. intros task _. apply Hbroker. }
  split; [|split].
  - subst run.
    rewrite (collect_repositories_unfold world project_key vcs_instance_name
               path instances instance vcs_client) by done.
    cbv zeta. cbn [outcome]. rewrite bind_unfold, Hextract. cbn [outcome].
    by rewrite send_tasks_to_celery_queue_accepted.
  - subst run.
    rewrite (collect_repositories_unfold world project_key vcs_instance_name
               path instances instance vcs_client) by done.
    cbv zeta. cbn [effects]. rewrite bind_unfold, Hextract. cbn [effects].
    rewrite !enqueued_app, Hquiet.
    rewrite send_tasks_to_celery_queue_accepted by done.
    cbn [effects]. apply enqueued_send_events.
  - exists simple. split; [done|]. subst run.
    rewrite (collect_repositories_reports world project_key vcs_instance_name
               path instances instance vcs_client) by done.
    by apply (extraction_reports world project_key vcs_client
                vcs_instance_name listing simple host port).
Qed.

Lemma completed_run_reports_then_dispatches_witness :
  let world :=
    Scenario.deployment Scenario.client_P1 Scenario.unavailable_response
      (Ok tt) in
  let run := collect_repositories world "P1" "inst" in
  outcome run = Ok tt ∧
  enqueued (effects run) =
  map (scan_message world "scan_repository" "repositories")
      (omap (task_of "P1" Scenario.client_P1 "inst")
         [Scenario.A; Scenario.B; Scenario.C]) ∧
  ∃ simple,
    mapM simple_of [Scenario.A; Scenario.B; Scenario.C] = Some simple ∧
    reports (effects run) = [report_body "P1" "inst" simple].
Proof.
  intros world.
  apply (completed_run_reports_then_dispatches world "P1" "inst"
           "/etc/vcs_instances.json" {[ "inst" := Scenario.instance ]}
           Scenario.instance Scenario.client_P1
           [Scenario.A; Scenario.B; Scenario.C]).
  - vm_compute; reflexivity.
  - reflexivity.
  - vm_compute; reflexivity.
  - reflexivity.
  - reflexivity.
  - vm_compute; reflexivity.
  - vm_compute; reflexivity.
  - intros task. reflexivity.
Defined.

(** ** Failures of the report that are not swallowed *)

(** X12. An exception of [requests.post] that is no [RequestException]
    leaves [send_repository_id_to_backend] and with it the extraction,
    after the request was made: the task list that the loop collected is
    not returned. *)
Theorem report_failure_outside_requests_propagates
    (world : World) (project_key : string) (vcs_client : VCSConnector)
    (vcs_instance_name : string) (listing : list dict)
    (simple : list SimpleRepository) (host port : string) (e : exn) :
  get_repos vcs_client project_key = Ok listing →
  forallb (contained project_key vcs_client vcs_instance_name) listing = true →
  mapM simple_of listing = Some simple →
  env_variables world !! RESC_API_NO_AUTH_SERVICE_HOST world = Some host →
  env_variables world !! RESC_API_NO_AUTH_SERVICE_PORT world = Some port →
  let url := report_url host port in
  let body := report_body project_key vcs_instance_name simple in
  requests_post world url body report_headers = Raise e →
  is_RequestException e = false →
  send_repository_id_to_backend world simple vcs_instance_name project_key =
  Run (Raise e) [Post url body report_headers] ∧
  outcome (extract_project_information world project_key vcs_client
             vcs_instance_name) = Raise e.
Proof.
  intros Hlisted Hloop Hsimple Hhost Hport url body Hpost Hother.
  assert (send_repository_id_to_backend world simple vcs_instance_name
            project_key = Run (Raise e) [Post url body report_headers])
    as Hreport.
  { rewrite (send_repository_id_to_backend_unfold world host port Hhost Hport).
    cbv zeta. fold url body. by rewrite Hpost, Hother. }
  split; [done|].
  rewrite extract_project_information_unfold, Hlisted. cbv zeta.
  rewrite (loop_contained _ _ _ _ _ Hloop).
  rewrite (extract_repository_id_and_name_Ok _ _ Hsimple). cbn [outcome].
  by rewrite Hreport.
Qed.

Lemma report_failure_outside_requests_propagates_witness :
  let world :=
    Scenario.deployment Scenario.client_P1 (Raise Scenario.decoding_failed)
      (Ok tt) in
  let simple :=
    [{| simple_id := "1"; simple_name := PyStr "A" |};
     {| simple_id := "2"; simple_name := PyStr "B" |};
     {| simple_id := "c-3"; simple_name := PyStr "C" |}] in
  send_repository_id_to_backend world simple "inst" "P1" =
  Run (Raise Scenario.decoding_failed)
      [Post (report_url "backend" "8000") (report_body "P1" "inst" simple)
         report_headers] ∧
  outcome (extract_project_information world "P1" Scenario.client_P1 "inst")
  = Raise Scenario.decoding_failed.
Proof.
  intros world simple.
  apply (report_failure_outside_requests_propagates world "P1"
           Scenario.client_P1 "inst" [Scenario.A; Scenario.B; Scenario.C]
           simple "backend" "8000" Scenario.decoding_failed).
  - reflexivity.
  - vm_compute; reflexivity.
  - vm_compute; reflexivity.
  - vm_compute; reflexivity.
  - vm_compute; reflexivity.
  - reflexivity.
  - reflexivity.
Defined.

(** X13. When the host or the port of the backend is not in the
    environment table, [send_repository_id_to_backend] raises the
    [KeyError] of the first missing variable, the host being read before
    the port: no request is made and nothing is logged. *)
Theorem unset_backend_address_raises_before_request
    (world : World) (simple : list SimpleRepository)
    (vcs_instance_name project_key : string) :
  env_variables world !! RESC_API_NO_AUTH_SERVICE_HOST world = None ∨
  env_variables world !! RESC_API_NO_AUTH_SERVICE_PORT world = None →
  send_repository_id_to_backend world simple vcs_instance_name project_key =
  Run (Raise (KeyError
                match env_variables world
                        !! RESC_API_NO_AUTH_SERVICE_HOST world with
                | None => RESC_API_NO_AUTH_SERVICE_HOST world
                | Some _ => RESC_API_NO_AUTH_SERVICE_PORT world
                end)) [].
Proof.
  intros Hunset. rewrite send_repository_id_to_backend_cases.
  destruct (env_variables world !! RESC_API_NO_AUTH_SERVICE_HOST world)
    as [host|] eqn:Hhost; [|done].
  destruct (env_variables world !! RESC_API_NO_AUTH_SERVICE_PORT world)
    as [port|] eqn:Hport; [|done].
  by destruct Hunset.
Qed.

(** With both variables missing it is the host that is reported. *)
Lemma unset_backend_address_raises_before_request_witness :
  send_repository_id_to_backend
    (Scenario.deployment_without_backend Scenario.client_P1) [] "inst" "P1"
  = Run (Raise (KeyError "RESC_API_NO_AUTH_SERVICE_HOST")) [].
Proof.
  apply (unset_backend_address_raises_before_request
           (Scenario.deployment_without_backend Scenario.client_P1)
           [] "inst" "P1").
  right. vm_compute; reflexivity.
Defined.

(** ** The payload of the report *)

(** X14. The one report of a run whose loop ran to its end carries the
    project key and the instance name of the run and one entry per listed
    record, with or without commits, in listing order: the string
    conversion of the record's id and its name. *)
Theorem report_lists_every_listed_repository
    (world : World) (project_key : string) (vcs_client : VCSConnector)
    (vcs_instance_name : string) (listing : list dict) (host port : string) :
  get_repos vcs_client project_key = Ok listing →
  forallb (contained project_key vcs_client vcs_instance_name) listing = true →
  forallb well_formed listing = true →
  env_variables world !! RESC_API_NO_AUTH_SERVICE_HOST world = Some host →
  env_variables world !! RESC_API_NO_AUTH_SERVICE_PORT world = Some port →
  ∃ body,
    reports (effects (extract_project_information world project_key
                        vcs_client vcs_instance_name)) = [body] ∧
    active_project_key body = project_key ∧
    active_vcs_instance_name body = vcs_instance_name ∧
    Forall2 entry_of listing (repositories body).
Proof.
  intros Hlisted Hloop Hfields Hhost Hport.
  destruct (well_formed_simple_of listing Hfields) as (simple & Hsimple & Hall).
  exists (report_body project_key vcs_instance_name simple).
  split; [|done].
  by apply (extraction_reports world project_key vcs_client vcs_instance_name
              listing simple host port).
Qed.

Lemma report_lists_every_listed_repository_witness :
  ∃ body,
    reports (effects (extract_project_information
                        (Scenario.deployment Scenario.client_P1
                           Scenario.unavailable_response (Ok tt))
                        "P1" Scenario.client_P1 "inst")) = [body] ∧
    active_project_key body = "P1" ∧
    active_vcs_instance_name body = "inst" ∧
    Forall2 entry_of [Scenario.A; Scenario.B; Scenario.C] (repositories body).
Proof.
  apply (report_lists_every_listed_repository
           (Scenario.deployment Scenario.client_P1
              Scenario.unavailable_response (Ok tt))
           "P1" Scenario.client_P1 "inst"
           [Scenario.A; Scenario.B; Scenario.C] "backend" "8000").
  - reflexivity.
  - vm_compute; reflexivity.
  - vm_compute; reflexivity.
  - vm_compute; reflexivity.
  - vm_compute; reflexivity.
Defined.

(** ** The calls made on the connector *)

Section Fetches.

Variables (project_key : string) (vcs_client : VCSConnector)
          (vcs_instance_name : string).

Abbreviation process :=
  (process_repository project_key vcs_client vcs_instance_name).

Lemma fetches_app (t1 t2 : list event) :
  fetches (t1 ++ t2) = fetches t1 ++ fetches t2.
Proof. apply omap_app. Qed.

(** An iteration fetches once, with the name of the record as repository
    id, however it ends. *)
Lemma process_fetches (repository : dict) (name : pyval)
    (project_tasks : list Repository) :
  repository !! "name" = Some name →
  fetches (effects (process repository project_tasks)) = [(project_key, name)].
Proof.
  intros Hname. rewrite process_repository_unfold, Hname. cbv zeta.
  destruct (get_latest_commit _ _ _) as [commit|e].
  - destruct (export_repository _ _ _ _) as [task|e].
    + by destruct (truthy commit).
    + by destruct (is_HTTPError e).
  - by destruct (is_HTTPError e).
Qed.

End Fetches.

(** X15. A loop that runs to its end makes exactly one commit fetch per
    listed record, in listing order, for the project key of the run and
    with the record's name, not its id, as the repository id. *)
Theorem one_fetch_per_listed_repository
    (project_key : string) (vcs_client : VCSConnector)
    (vcs_instance_name : string) (listing : list dict)
    (project_tasks : list Repository) :
  forallb (contained project_key vcs_client vcs_instance_name) listing = true →
  Forall2 (λ repository call,
             call.1 = project_key ∧ repository !! "name" = Some call.2)
    listing
    (fetches (effects (for_each
                         (process_repository project_key vcs_client
                            vcs_instance_name) listing project_tasks))).
Proof.
  revert project_tasks.
  induction listing as [|repository listing IH]; intros project_tasks Hloop.
  - constructor.
  - cbn [forallb] in Hloop. apply andb_prop in Hloop as [Hhere Hloop].
    rewrite for_each_cons, bind_unfold.
    rewrite (process_contained _ _ _ _ _ Hhere). cbn [effects].
    rewrite fetches_app.
    unfold contained in Hhere.
    destruct (repository !! "name") as [name|] eqn:Hname; [|done].
    rewrite (process_fetches _ _ _ _ name _ Hname).
    constructor; [done|]. by apply IH.
Qed.

Lemma one_fetch_per_listed_repository_witness :
  Forall2 (λ repository call,
             call.1 = "P1" ∧ repository !! "name" = Some call.2)
    [Scenario.A; Scenario.B; Scenario.C]
    (fetches (effects (for_each
                         (process_repository "P1" Scenario.client_P1 "inst")
                         [Scenario.A; Scenario.B; Scenario.C] []))).
Proof.
  apply (one_fetch_per_listed_repository "P1" Scenario.client_P1 "inst"
           [Scenario.A; Scenario.B; Scenario.C] []).
  vm_compute; reflexivity.
Defined.

(** ** Failures that end the run *)

(** X16. An exception of a commit fetch that is no [HTTPError] ends the
    extraction at that call: the run raises it right after the fetch,
    without an error record; the records after it are not processed, the
    descriptors collected before it are not returned and no report is
    sent. *)
Theorem other_fetch_failure_ends_extraction
    (world : World) (project_key : string) (vcs_client : VCSConnector)
    (vcs_instance_name : string) (before after : list dict)
    (repository : dict) (name : pyval) (e : exn) :
  get_repos vcs_client project_key = Ok (before ++ repository :: after) →
  forallb (contained project_key vcs_client vcs_instance_name) before = true →
  repository !! "name" = Some name →
  get_latest_commit vcs_client project_key name = Raise e →
  is_HTTPError e = false →
  extract_project_information world project_key vcs_client vcs_instance_name =
  Run (Raise e)
      (prologue project_key vcs_instance_name (before ++ repository :: after)
         ++ effects (for_each
                       (process_repository project_key vcs_client
                          vcs_instance_name) before [])
         ++ [fetching_record project_key name;
             Get_latest_commit project_key name]).
Proof.
  intros Hlisted Hbefore Hname Hfetch Hother.
  pose proof (for_each_app
                (process_repository project_key vcs_client vcs_instance_name)
                before (repository :: after) []) as Hloop.
  rewrite bind_unfold, (loop_contained _ _ _ _ _ Hbefore) in Hloop.
  rewrite for_each_cons, process_repository_unfold, Hname, Hfetch, Hother
    in Hloop.
  rewrite bind_unfold in Hloop. cbn [outcome effects] in Hloop.
  rewrite (extraction_loop_raises world project_key vcs_client
             vcs_instance_name _ e Hlisted);
    by rewrite Hloop.
Qed.

Lemma other_fetch_failure_ends_extraction_witness :
  let client := Scenario.client_P3 Scenario.timed_out in
  extract_project_information
    (Scenario.deployment client Scenario.ok_response (Ok tt))
    "P3" client "inst" =
  Run (Raise Scenario.timed_out)
      (prologue "P3" "inst" ([] ++ Scenario.D :: [Scenario.E])
         ++ effects (for_each (process_repository "P3" client "inst") [] [])
         ++ [fetching_record "P3" (PyStr "D");
             Get_latest_commit "P3" (PyStr "D")]).
Proof.
  intros client.
  apply (other_fetch_failure_ends_extraction
           (Scenario.deployment client Scenario.ok_response (Ok tt))
           "P3" client "inst" [] [Scenario.E] Scenario.D (PyStr "D")
           Scenario.timed_out).
  - reflexivity.
  - reflexivity.
  - vm_compute; reflexivity.
  - reflexivity.
  - reflexivity.
Defined.

(** X17. When the broker refuses a message, the run of
    [collect_repositories] raises that exception after the report was
    sent: the backend has the active set, the queue has the messages up
    to the refused one, and the descriptors after it are not
    dispatched. *)
Theorem refused_message_ends_run_after_report
    (world : World) (project_key vcs_instance_name path : string)
    (instances : gmap string VCSInstance) (instance : VCSInstance)
    (vcs_client : VCSConnector) (listing : list dict)
    (before after : list Repository) (task : Repository) (e : exn) :
  env_variables world !! VCS_INSTANCES_FILE_PATH world = Some path →
  load_vcs_instances_into_map world path = Ok instances →
  instances !! vcs_instance_name = Some instance →
  create_client_from_vcs_instance world instance = Ok vcs_client →
  get_repos vcs_client project_key = Ok listing →
  forallb (contained project_key vcs_client vcs_instance_name) listing = true →
  report_contained world project_key vcs_instance_name listing = true →
  omap (task_of project_key vcs_client vcs_instance_name) listing
  = before ++ task :: after →
  forallb (accepted world (SECRET_SCANNER_TASK_NAME world)
             (REPOSITORY_QUEUE world)) before = true →
  celery_send_task world (SECRET_SCANNER_TASK_NAME world)
    (task_kwargs world task) (REPOSITORY_QUEUE world) = Raise e →
  let run := collect_repositories world project_key vcs_instance_name in
  outcome run = Raise e ∧
  length (reports (effects run)) = 1 ∧
  enqueued (effects run) =
  map (scan_message world (SECRET_SCANNER_TASK_NAME world)
         (REPOSITORY_QUEUE world)) (before ++ [task]).
Proof.
  intros Hpath Hload Hinstance Hclient Hlisted Hloop Hreport Htasks Hbefore
    Hrefused run.
  apply report_contained_inv in Hreport
    as (simple & host & port & Hsimple & Hhost & Hport & Hpost).
  pose proof (extract_project_information_outcome world project_key vcs_client
                vcs_instance_name listing simple host port Hlisted Hloop
                Hsimple Hhost Hport Hpost) as Hextract.
  rewrite Htasks in Hextract.
  pose proof (extraction_no_message world project_key vcs_client
                vcs_instance_name) as Hquiet.
  pose proof (send_tasks_to_celery_queue_refused world _ _ before after task e
                Hbefore Hrefused) as Hsend.
  split; [|split].
  - subst run.
    rewrite (collect_repositories_unfold world project_key vcs_instance_name
               path instances instance vcs_client) by done.
    cbv zeta. cbn [outcome]. rewrite bind_unfold, Hextract. cbn [outcome].
    by rewrite Hsend.
  - subst run.
    rewrite (collect_repositories_reports world project_key vcs_instance_name
               path instances instance vcs_client) by done.
    by rewrite (extraction_reports world project_key vcs_client
                  vcs_instance_name listing simple host port).
  - subst run.
    rewrite (collect_repositories_unfold world project_key vcs_instance_name
               path instances instance vcs_client) by done.
    cbv zeta. cbn [effects]. rewrite bind_unfold, Hextract. cbn [effects].
    rewrite !enqueued_app, Hquiet, Hsend. cbn [effects].
    apply enqueued_send_events.
Qed.

Lemma refused_message_ends_run_after_report_witness :
  let world :=
    Scenario.deployment Scenario.client_P1 Scenario.ok_response
      (Raise Scenario.broker_down) in
  let task_A := Scenario.describe "P1" Scenario.A (PyStr "abc") "inst" in
  let run := collect_repositories world "P1" "inst" in
  outcome run = Raise Scenario.broker_down ∧
  length (reports (effects run)) = 1 ∧
  enqueued (effects run) =
  map (scan_message world "scan_repository" "repositories") ([] ++ [task_A]).
Proof.
  intros world task_A.
  apply (refused_message_ends_run_after_report world "P1" "inst"
           "/etc/vcs_instances.json" {[ "inst" := Scenario.instance ]}
           Scenario.instance Scenario.client_P1
           [Scenario.A; Scenario.B; Scenario.C] []
           [Scenario.describe "P1" Scenario.C (PyStr "def") "inst"] task_A
           Scenario.broker_down).
  - vm_compute; reflexivity.
  - reflexivity.
  - vm_compute; reflexivity.
  - reflexivity.
  - reflexivity.
  - vm_compute; reflexivity.
  - vm_compute; reflexivity.
  - vm_compute; reflexivity.
  - reflexivity.
  - reflexivity.
Defined.
